(** * ProxyPin MCP bridge

    A shallow embedding of [proxypin_mcp_server.py]: the transport function
    [call_proxypin_tool] (request envelope, request id counter, HTTP exchange,
    unwrapping of the reply, error wrapping) and the registered tools that
    shape their keyword arguments into the outgoing argument mapping.

    Python values are a first-order datatype, dictionaries are association
    lists in insertion order, exceptions are a result type, and the module
    globals ([session], [request_id_counter]) are an explicit state record
    threaded through every call. *)

From Stdlib Require Import String Ascii ZArith List Bool Lia DecimalString FinFun.
Import ListNotations.
Local Open Scope string_scope.

(** ** Python values and the builtins the server relies on *)

Module Py.

(** The values that flow through the server: keyword arguments of the tools
    and decoded JSON documents.  A float is represented by its [repr] (the
    shortest decimal literal that reads back as the same binary64 number),
    a [str] by its UTF-8 bytes. *)
#[warnings="-register-all"]
Inductive value : Type :=
| VNone
| VBool (b : bool)
| VInt (n : Z)
| VFloat (repr : string)
| VStr (s : string)
| VList (items : list value)
| VDict (items : list (string * value)).

(** A [dict] with [str] keys, in insertion order. *)
Definition dict : Type := list (string * value).

(** Exception classes.  [RequestException] stands for
    [requests.exceptions.RequestException] and its subclasses; [kind] keeps
    the subclass and [msg] is [str(e)].  The builtin errors that dynamic
    typing can raise carry no message here. *)
Inductive request_error : Type :=
| ConnectionError | Timeout | HTTPError | InvalidJSONError | OtherRequestError.

Inductive exn : Type :=
| Exception (msg : string)
| RequestException (kind : request_error) (msg : string)
| JSONDecodeError (msg : string)
| TypeError
| AttributeError
| KeyError
| IndexError.

Inductive result (A : Type) : Type :=
| Return (a : A)
| Raise (e : exn).
Arguments Return {A} a.
Arguments Raise {A} e.

Definition bind {A B : Type} (m : result A) (k : A -> result B) : result B :=
  match m with
  | Return a => k a
  | Raise e => Raise e
  end.

(** [d.get(k)] without default, as an option. *)
Fixpoint dict_get (k : string) (d : dict) : option value :=
  match d with
  | [] => None
  | (k', v) :: d' => if String.eqb k k' then Some v else dict_get k d'
  end.

(** [d[k] = v]: an existing key keeps its position, a new key goes last. *)
Fixpoint dict_set (k : string) (v : value) (d : dict) : dict :=
  match d with
  | [] => [(k, v)]
  | (k', v') :: d' =>
      if String.eqb k k' then (k', v) :: d' else (k', v') :: dict_set k v d'
  end.

(** [dict(pairs)]: later pairs overwrite earlier ones. *)
Definition dict_of_pairs (l : list (string * value)) : dict :=
  fold_left (fun d kv => dict_set (fst kv) (snd kv) d) l [].

(** [x is None] *)
Definition is_none (v : value) : bool :=
  match v with
  | VNone => true
  | _ => false
  end.

(** Truth value testing, as [if v:] does it. *)
Definition truthy (v : value) : bool :=
  match v with
  | VNone => false
  | VBool b => b
  | VInt n => negb (n =? 0)%Z
  | VFloat r => negb ((r =? "0.0") || (r =? "-0.0"))
  | VStr s => negb (s =? "")
  | VList l => match l with [] => false | _ :: _ => true end
  | VDict d => match d with [] => false | _ :: _ => true end
  end.

(** [x in s] on strings: [x] occurs in [s] as a substring. *)
Fixpoint contains (s x : string) : bool :=
  String.prefix x s ||
  match s with
  | EmptyString => false
  | String _ s' => contains s' x
  end.

(** [str(n)] for an [int]. *)
Definition str_int (n : Z) : string := NilZero.string_of_int (Z.to_int n).

Definition hex_digit (n : nat) : ascii :=
  nth n (list_ascii_of_string "0123456789abcdef") "0"%char.

Definition squote : ascii := "'"%char.
Definition dquote : ascii := "034"%char.
Definition backslash : ascii := "\"%char.

(** [width] lowercase hexadecimal digits of [n]. *)
Fixpoint hex (width : nat) (n : N) : string :=
  match width with
  | O => ""
  | S w => hex w (n / 16) ++ String (hex_digit (N.to_nat (n mod 16))) ""
  end.

(** One ASCII character of [repr(s)] for the chosen quote. *)
Definition repr_char (quote c : ascii) : string :=
  let n := nat_of_ascii c in
  if Ascii.eqb c quote || Ascii.eqb c backslash then String backslash (String c "")
  else if Nat.eqb n 9 then "\t"
  else if Nat.eqb n 10 then "\n"
  else if Nat.eqb n 13 then "\r"
  else if Nat.ltb n 32 || Nat.eqb n 127
       then "\x" ++ String (hex_digit (n / 16)) (String (hex_digit (n mod 16)) "")
  else String c "".

Fixpoint has_char (c : ascii) (s : string) : bool :=
  match s with
  | EmptyString => false
  | String c' s' => Ascii.eqb c c' || has_char c s'
  end.

(** The escape that [repr] writes for a character beyond ASCII that is not
    printable: two, four or eight hexadecimal digits by the size of the
    code point. *)
Definition escape_wide (cp : N) : string :=
  if (cp <? 256)%N then "\x" ++ hex 2 cp
  else if (cp <? 65536)%N then "\u" ++ hex 4 cp
  else "\U" ++ hex 8 cp.

(** The six payload bits of a continuation byte. *)
Definition low6 (c : ascii) : N := (N_of_ascii c mod 64)%N.

(** [repr(s)] for a [str]: single quotes, unless the string holds a single
    quote and no double quote. *)
Definition repr_quote (s : string) : ascii :=
  if has_char squote s && negb (has_char dquote s) then dquote else squote.

Fixpoint join (sep : string) (l : list string) : string :=
  match l with
  | [] => ""
  | [x] => x
  | x :: l' => x ++ sep ++ join sep l'
  end.

Section Repr.

(** [str.isprintable] on the character of a code point beyond ASCII: the
    Unicode database of the interpreter, which [repr] consults to decide
    whether it keeps such a character or escapes it. *)
Variable isprintable : N -> bool.

(** A character beyond ASCII in [repr(s)], given by its code point and its
    bytes. *)
Definition repr_wide (cp : N) (bytes : string) : string :=
  if isprintable cp then bytes else escape_wide cp.

(** The characters of [repr(s)] between the quotes.  [s] holds the UTF-8
    bytes of a [str]: a byte below 0x80 is an ASCII character, a byte below
    0xE0 opens a character of two bytes, below 0xF0 of three, any other of
    four (a sequence cut short by the end of the string, which the bytes of
    a [str] never have, is copied). *)
Fixpoint repr_chars (quote : ascii) (s : string) : string :=
  match s with
  | EmptyString => ""
  | String c s1 =>
      let n := nat_of_ascii c in
      let b := N_of_ascii c in
      if Nat.ltb n 128 then repr_char quote c ++ repr_chars quote s1
      else if Nat.ltb n 224 then
        match s1 with
        | String c2 s2 =>
            repr_wide (b mod 32 * 64 + low6 c2)%N (String c (String c2 ""))
            ++ repr_chars quote s2
        | EmptyString => s
        end
      else if Nat.ltb n 240 then
        match s1 with
        | String c2 (String c3 s3) =>
            repr_wide ((b mod 16 * 64 + low6 c2) * 64 + low6 c3)%N
              (String c (String c2 (String c3 "")))
            ++ repr_chars quote s3
        | _ => s
        end
      else
        match s1 with
        | String c2 (String c3 (String c4 s4)) =>
            repr_wide (((b mod 8 * 64 + low6 c2) * 64 + low6 c3) * 64 + low6 c4)%N
              (String c (String c2 (String c3 (String c4 ""))))
            ++ repr_chars quote s4
        | _ => s
        end
  end.

Definition repr_str (s : string) : string :=
  let q := repr_quote s in
  String q (repr_chars q s ++ String q "").

(** [repr(v)] *)
Fixpoint py_repr (v : value) : string :=
  match v with
  | VNone => "None"
  | VBool true => "True"
  | VBool false => "False"
  | VInt n => str_int n
  | VFloat r => r
  | VStr s => repr_str s
  | VList l => "[" ++ join ", " (map py_repr l) ++ "]"
  | VDict d =>
      "{" ++ join ", " (map (fun kv => repr_str (fst kv) ++ ": " ++ py_repr (snd kv)) d) ++ "}"
  end.

(** [str(v)], which is what an f-string placeholder [{v}] inserts. *)
Definition py_str (v : value) : string :=
  match v with
  | VStr s => s
  | _ => py_repr v
  end.

End Repr.

(** [x in c] for a [str] [x]: key membership in a dict, element membership
    in a list, substring test in a string; other operands are not
    containers. *)
Definition py_in (x : string) (c : value) : result bool :=
  match c with
  | VDict d => Return (match dict_get x d with Some _ => true | None => false end)
  | VList l =>
      Return (existsb (fun v => match v with VStr s => String.eqb s x | _ => false end) l)
  | VStr s => Return (contains s x)
  | _ => Raise TypeError
  end.

(** [c[k]] for a [str] [k]. *)
Definition py_getitem (c : value) (k : string) : result value :=
  match c with
  | VDict d =>
      match dict_get k d with
      | Some v => Return v
      | None => Raise KeyError
      end
  | _ => Raise TypeError
  end.

(** [c.get(k, default)]: only a dict has the method. *)
Definition py_get (c : value) (k : string) (default : value) : result value :=
  match c with
  | VDict d =>
      Return (match dict_get k d with Some v => v | None => default end)
  | _ => Raise AttributeError
  end.

(** The bytes of the first character of a string. *)
Fixpoint continuation (s : string) : string :=
  match s with
  | String c s' =>
      if Nat.leb 128 (nat_of_ascii c) && Nat.ltb (nat_of_ascii c) 192
      then String c (continuation s') else ""
  | EmptyString => ""
  end.

(** [c[0]]: the first element of a list, the first character of a string;
    a dict has no key [0] since its keys are strings. *)
Definition py_first (c : value) : result value :=
  match c with
  | VList (x :: _) => Return x
  | VList [] => Raise IndexError
  | VStr (String ch s) => Return (VStr (String ch (continuation s)))
  | VStr EmptyString => Raise IndexError
  | VDict _ => Raise KeyError
  | _ => Raise TypeError
  end.

End Py.

Declare Scope py_scope.
Delimit Scope py_scope with py.
Notation "x <- m ;; k" := (Py.bind m (fun x => k))
  (at level 61, m at next level, right associativity) : py_scope.

(** ** A reference JSON decoder

    [json.loads] belongs to the Python library, so the transport function
    below takes its decoder as a parameter.  This module gives a decoder to
    run it with: the scanner of [json.decoder] on [str] input (whitespace,
    the three literals, numbers, strings with their escapes, arrays and
    objects, [NaN] and the infinities, nothing after the value).  [None]
    stands for a raised [JSONDecodeError].

    A number with a fraction or an exponent becomes a [VFloat] holding the
    literal as written, which is the float's [repr] for literals such as
    [1.5] or [0.25] and not for other spellings of the same number
    ([1.50], [15e-1]); the decoder is meant for documents without those. *)

Module Json.
Import Py.

Definition is_ws (c : ascii) : bool :=
  Ascii.eqb c " " || Ascii.eqb c "009" || Ascii.eqb c "010" || Ascii.eqb c "013".

Fixpoint skip_ws (s : string) : string :=
  match s with
  | String c s' => if is_ws c then skip_ws s' else s
  | EmptyString => s
  end.

Definition is_digit (c : ascii) : bool :=
  let n := nat_of_ascii c in Nat.leb 48 n && Nat.leb n 57.

(** The longest run of ASCII digits at the head of [s], and what follows. *)
Fixpoint digits (s : string) : string * string :=
  match s with
  | String c s' =>
      if is_digit c then let (d, r) := digits s' in (String c d, r) else ("", s)
  | EmptyString => ("", s)
  end.

Fixpoint Z_of_digits (acc : Z) (d : string) : Z :=
  match d with
  | String c d' => Z_of_digits (10 * acc + (Z.of_nat (nat_of_ascii c) - 48))%Z d'
  | EmptyString => acc
  end.

(** The integer part of a number: an optional minus sign, then a single
    zero or a run of digits that does not start with zero. *)
Definition scan_integer (s : string) : option (string * string) :=
  let (sign, s1) :=
    match s with
    | String "-" r => ("-", r)
    | _ => ("", s)
    end in
  match s1 with
  | String "0" r => Some (sign ++ "0", r)
  | String c _ =>
      if is_digit c then let (d, r) := digits s1 in Some (sign ++ d, r) else None
  | EmptyString => None
  end.

(** The optional fraction: a dot and at least one digit. *)
Definition scan_frac (s : string) : string * string :=
  match s with
  | String "." r =>
      match digits r with
      | (EmptyString, _) => ("", s)
      | (d, r') => (String "." d, r')
      end
  | _ => ("", s)
  end.

(** The optional exponent: e or E, an optional sign, at least one digit. *)
Definition scan_exp (s : string) : string * string :=
  match s with
  | String e r =>
      if Ascii.eqb e "e" || Ascii.eqb e "E" then
        let (sign, r1) :=
          match r with
          | String "-" r1 => ("-", r1)
          | String "+" r1 => ("+", r1)
          | _ => ("", r)
          end in
        match digits r1 with
        | (EmptyString, _) => ("", s)
        | (d, r') => (String e (sign ++ d), r')
        end
      else ("", s)
  | EmptyString => ("", s)
  end.

Definition int_of_literal (lit : string) : Z :=
  match lit with
  | String "-" d => (- Z_of_digits 0 d)%Z
  | d => Z_of_digits 0 d
  end.

Definition scan_number (s : string) : option (value * string) :=
  match scan_integer s with
  | None => None
  | Some (i, r) =>
      let (f, r1) := scan_frac r in
      let (e, r2) := scan_exp r1 in
      match f, e with
      | EmptyString, EmptyString => Some (VInt (int_of_literal i), r2)
      | _, _ => Some (VFloat (i ++ f ++ e), r2)
      end
  end.

Definition hex_value (c : ascii) : option N :=
  let n := N_of_ascii c in
  if (48 <=? n)%N && (n <=? 57)%N then Some (n - 48)%N
  else if (97 <=? n)%N && (n <=? 102)%N then Some (n - 87)%N
  else if (65 <=? n)%N && (n <=? 70)%N then Some (n - 55)%N
  else None.

(** The four hexadecimal digits of a [\uXXXX] escape. *)
Definition hex4 (a b c d : ascii) : option N :=
  match hex_value a, hex_value b, hex_value c, hex_value d with
  | Some x, Some y, Some z, Some w => Some (((x * 16 + y) * 16 + z) * 16 + w)%N
  | _, _, _, _ => None
  end.

(** The UTF-8 bytes of a code point (a lone surrogate takes the three-byte
    form, as a Python [str] can hold one). *)
Definition utf8 (cp : N) : string :=
  let byte (n : N) := ascii_of_N n in
  let cont (n : N) := byte (128 + n mod 64)%N in
  if (cp <? 128)%N then String (byte cp) ""
  else if (cp <? 2048)%N then String (byte (192 + cp / 64)%N) (String (cont cp) "")
  else if (cp <? 65536)%N then
    String (byte (224 + cp / 4096)%N) (String (cont (cp / 64)%N) (String (cont cp) ""))
  else
    String (byte (240 + cp / 262144)%N)
      (String (cont (cp / 4096)%N) (String (cont (cp / 64)%N) (String (cont cp) ""))).

Definition simple_escape (c : ascii) : option ascii :=
  if Ascii.eqb c dquote then Some dquote
  else if Ascii.eqb c backslash then Some backslash
  else if Ascii.eqb c "/" then Some "/"%char
  else if Ascii.eqb c "b" then Some "008"%char
  else if Ascii.eqb c "f" then Some "012"%char
  else if Ascii.eqb c "n" then Some "010"%char
  else if Ascii.eqb c "r" then Some "013"%char
  else if Ascii.eqb c "t" then Some "009"%char
  else None.

(** The low half of a surrogate pair written right after a high half. *)
Definition low_surrogate (s : string) : option (N * string) :=
  match s with
  | String b (String u (String h1 (String h2 (String h3 (String h4 r))))) =>
      if Ascii.eqb b backslash && Ascii.eqb u "u" then
        match hex4 h1 h2 h3 h4 with
        | Some lo => if (56320 <=? lo)%N && (lo <=? 57343)%N then Some (lo, r) else None
        | None => None
        end
      else None
  | _ => None
  end.

(** [scanstring] in strict mode, from just after the opening quote: the
    decoded string and what follows the closing quote.  [fuel] bounds the
    number of characters and escapes read. *)
Fixpoint scanstring (fuel : nat) (s : string) : option (string * string) :=
  match fuel with
  | O => None
  | S fuel' =>
      match s with
      | EmptyString => None
      | String c r =>
          if Ascii.eqb c dquote then Some ("", r)
          else if Ascii.eqb c backslash then
            match r with
            | EmptyString => None
            | String e r1 =>
                match simple_escape e with
                | Some ch =>
                    match scanstring fuel' r1 with
                    | Some (t, rest) => Some (String ch t, rest)
                    | None => None
                    end
                | None =>
                    if Ascii.eqb e "u" then
                      match r1 with
                      | String h1 (String h2 (String h3 (String h4 r2))) =>
                          match hex4 h1 h2 h3 h4 with
                          | None => None
                          | Some hi =>
                              let (cp, r3) :=
                                if (55296 <=? hi)%N && (hi <=? 56319)%N then
                                  match low_surrogate r2 with
                                  | Some (lo, r') =>
                                      (65536 + (hi - 55296) * 1024 + (lo - 56320), r')%N
                                  | None => (hi, r2)
                                  end
                                else (hi, r2) in
                              match scanstring fuel' r3 with
                              | Some (t, rest) => Some (utf8 cp ++ t, rest)
                              | None => None
                              end
                          end
                      | _ => None
                      end
                    else None
                end
            end
          else if Nat.ltb (nat_of_ascii c) 32 then None
          else
            match scanstring fuel' r with
            | Some (t, rest) => Some (String c t, rest)
            | None => None
            end
      end
  end.

(** [s] without its first [n] characters. *)
Fixpoint drop (n : nat) (s : string) : string :=
  match n, s with
  | S n', String _ s' => drop n' s'
  | _, _ => s
  end.

(** [scan_once] reads one value at the head of [s]; [scan_elements] reads
    the rest of an array from its first element on, [scan_members] the rest
    of an object from just after the opening quote of a key.  [fuel] bounds
    the depth of the calls, which never exceeds the length of the input:
    going one level down takes two calls and two brackets, going on to the
    next element or member takes one call and at least two characters. *)
Fixpoint scan_once (fuel : nat) (s : string) : option (value * string) :=
  match fuel with
  | O => None
  | S fuel' =>
      match s with
      | EmptyString => None
      | String c r =>
          if Ascii.eqb c dquote then
            match scanstring (String.length r) r with
            | Some (t, rest) => Some (VStr t, rest)
            | None => None
            end
          else if Ascii.eqb c "{" then
            match skip_ws r with
            | String c1 r1 =>
                if Ascii.eqb c1 "}" then Some (VDict [], r1)
                else if Ascii.eqb c1 dquote then
                  match scan_members fuel' r1 [] with
                  | Some (pairs, rest) => Some (VDict (dict_of_pairs pairs), rest)
                  | None => None
                  end
                else None
            | EmptyString => None
            end
          else if Ascii.eqb c "[" then
            match skip_ws r with
            | String c1 r1 =>
                if Ascii.eqb c1 "]" then Some (VList [], r1)
                else
                  match scan_elements fuel' (String c1 r1) [] with
                  | Some (items, rest) => Some (VList items, rest)
                  | None => None
                  end
            | EmptyString => None
            end
          else if String.prefix "null" s then Some (VNone, drop 4 s)
          else if String.prefix "true" s then Some (VBool true, drop 4 s)
          else if String.prefix "false" s then Some (VBool false, drop 5 s)
          else
            match scan_number s with
            | Some vr => Some vr
            | None =>
                if String.prefix "NaN" s then Some (VFloat "nan", drop 3 s)
                else if String.prefix "Infinity" s then Some (VFloat "inf", drop 8 s)
                else if String.prefix "-Infinity" s then Some (VFloat "-inf", drop 9 s)
                else None
            end
      end
  end

with scan_elements (fuel : nat) (s : string) (acc : list value)
  : option (list value * string) :=
  match fuel with
  | O => None
  | S fuel' =>
      match scan_once fuel' s with
      | None => None
      | Some (v, rest) =>
          match skip_ws rest with
          | String c r =>
              if Ascii.eqb c "]" then Some ((acc ++ [v])%list, r)
              else if Ascii.eqb c "," then scan_elements fuel' (skip_ws r) (acc ++ [v])%list
              else None
          | EmptyString => None
          end
      end
  end

with scan_members (fuel : nat) (s : string) (acc : list (string * value))
  : option (list (string * value) * string) :=
  match fuel with
  | O => None
  | S fuel' =>
      match scanstring (String.length s) s with
      | None => None
      | Some (key, rest) =>
          match skip_ws rest with
          | String colon r =>
              if Ascii.eqb colon ":" then
                match scan_once fuel' (skip_ws r) with
                | None => None
                | Some (v, rest') =>
                    match skip_ws rest' with
                    | String c r' =>
                        if Ascii.eqb c "}" then Some ((acc ++ [(key, v)])%list, r')
                        else if Ascii.eqb c "," then
                          match skip_ws r' with
                          | String q r'' =>
                              if Ascii.eqb q dquote
                              then scan_members fuel' r'' (acc ++ [(key, v)])%list
                              else None
                          | EmptyString => None
                          end
                        else None
                    | EmptyString => None
                    end
                end
              else None
          | EmptyString => None
          end
      end
  end.

(** A leading byte order mark is refused. *)
Definition bom : string := utf8 65279.

(** [json.loads(s)] on a [str]: whitespace, one value, whitespace, end. *)
Definition loads (s : string) : option value :=
  if String.prefix bom s then None
  else
    match scan_once (S (String.length s)) (skip_ws s) with
    | Some (v, rest) =>
        match skip_ws rest with
        | EmptyString => Some v
        | String _ _ => None
        end
    | None => None
    end.

(** The decoder in the shape the transport function takes it: the value, or
    the message of the [JSONDecodeError], which [describe] gives for the
    refused document. *)
Definition decoder (describe : string -> string) (s : string) : value + string :=
  match loads s with
  | Some v => inl v
  | None => inr (describe s)
  end.

(** Test documents are written with single quotes where JSON has double
    quotes; [q] puts the double quotes in. *)
Fixpoint q (s : string) : string :=
  match s with
  | EmptyString => ""
  | String c s' => String (if Ascii.eqb c squote then dquote else c) (q s')
  end.

End Json.

(** ** The parts of the requests library the server uses *)

Module Requests.
Import Py.

(** A session: whether it reads the proxy settings of the environment
    ([trust_env]) and the proxy configured on the session itself. *)
Record Session : Type := { trust_env : bool; proxies : option string }.

(** [requests.Session()] *)
Definition new_Session : Session := {| trust_env := true; proxies := None |}.

Record Response : Type :=
  { status_code : Z; reason : string; url : string; text : string }.

(** What one POST meets on the network: the proxy the environment
    advertises (HTTP_PROXY and the like) and how the exchange ends, with an
    exception of the library or with a response. *)
Inductive exchange : Type :=
| Failed (kind : request_error) (msg : string)
| Responded (r : Response).

Record network : Type := { ambient_proxy : option string; reply : exchange }.

(** The request as it leaves the session. *)
Record request : Type :=
  { req_url : string; req_json : value; req_timeout : Z; req_proxy : option string }.

(** The proxy a session sends through: its own, else the environment's when
    the session trusts the environment, else none. *)
Definition select_proxy (s : Session) (ambient : option string) : option string :=
  match proxies s with
  | Some p => Some p
  | None => if trust_env s then ambient else None
  end.

(** [session.post(url, json=..., timeout=...)] *)
Definition post (s : Session) (net : network) (u : string) (json : value) (timeout : Z)
  : request * result Response :=
  ({| req_url := u; req_json := json; req_timeout := timeout;
      req_proxy := select_proxy s (ambient_proxy net) |},
   match reply net with
   | Failed kind msg => Raise (RequestException kind msg)
   | Responded r => Return r
   end).

(** [response.raise_for_status()]: an [HTTPError] for the client and server
    error statuses, nothing otherwise. *)
Definition raise_for_status (r : Response) : result unit :=
  let c := status_code r in
  if (400 <=? c)%Z && (c <? 500)%Z then
    Raise (RequestException HTTPError
             (str_int c ++ " Client Error: " ++ reason r ++ " for url: " ++ url r))
  else if (500 <=? c)%Z && (c <? 600)%Z then
    Raise (RequestException HTTPError
             (str_int c ++ " Server Error: " ++ reason r ++ " for url: " ++ url r))
  else Return tt.

(** [response.json()]: the body decoded; a body that is not JSON raises the
    library's own decode error, which is a [RequestException] (since
    requests 2.27). *)
Definition json (loads : string -> value + string) (r : Response) : result value :=
  match loads (text r) with
  | inl v => Return v
  | inr msg => Raise (RequestException InvalidJSONError msg)
  end.

End Requests.

(** ** The server: configuration and module globals *)

Import Py Requests.
Local Open Scope py_scope.

(** [PROXYPIN_HOST] and [PROXYPIN_PORT] as read from the environment when
    the module is loaded. *)
Record config : Type := { PROXYPIN_HOST : string; PROXYPIN_PORT : Z }.

Definition default_config : config :=
  {| PROXYPIN_HOST := "127.0.0.1"; PROXYPIN_PORT := 17777 |}.

Definition BASE_URL (c : config) : string :=
  "http://" ++ PROXYPIN_HOST c ++ ":" ++ str_int (PROXYPIN_PORT c).

Definition MESSAGES_URL (c : config) : string := BASE_URL c ++ "/messages".

(** The two module globals that outlive a call. *)
Record globals : Type := { session : Session; request_id_counter : Z }.

(** The globals after the module body has run: a fresh session with
    [trust_env] switched off, and the counter at 1. *)
Definition module_globals : globals :=
  let session := new_Session in
  let session := {| trust_env := false; proxies := proxies session |} in
  {| session := session; request_id_counter := 1 |}.

(** What one call of the transport function leaves behind: what it returned
    or raised, the globals afterwards, and the request it sent. *)
Record outcome : Type :=
  { returned : result value; globals_after : globals; sent : request }.

(** ** The transport function *)

Section Transport.

Variable cfg : config.

(** [json.loads] on a [str]: the decoded value, or the message of the
    [JSONDecodeError] it raises.  A document on which the decoder of the
    interpreter gives up in another way (an integer literal beyond its digit
    limit, nesting beyond its recursion limit) is outside this model. *)
Variable json_loads : string -> value + string.

(** The Unicode database of the interpreter, for [str] of the remote error. *)
Variable isprintable : N -> bool.

(** [json.loads(text)] on any value. *)
Definition py_json_loads (text : value) : result value :=
  match text with
  | VStr s =>
      match json_loads s with
      | inl v => Return v
      | inr msg => Raise (JSONDecodeError msg)
      end
  | _ => Raise TypeError
  end.

(** The body of the [try] block. *)
Definition try_body (s : Session) (net : network) (payload : value)
  : request * result value :=
  let (req, posted) := post s net (MESSAGES_URL cfg) payload 30 in
  (req,
   response <- posted ;;
   _ <- raise_for_status response ;;
   result <- json json_loads response ;;
   has_error <- py_in "error" result ;;
   if has_error : bool then
     err <- py_getitem result "error" ;;
     Raise (Exception ("MCP Error: " ++ py_str isprintable err))
   else
     res <- py_get result "result" (VDict []) ;;
     content <- py_get res "content" (VList []) ;;
     if truthy content then
       first <- py_first content ;;
       text <- py_get first "text" (VStr "{}") ;;
       py_json_loads text
     else Return (VDict [])).

(** The [except requests.exceptions.RequestException as e] clause. *)
Definition except_RequestException (r : result value) : result value :=
  match r with
  | Raise (RequestException _ e) => Raise (Exception ("ProxyPin连接失败: " ++ e))
  | _ => r
  end.

Definition call_proxypin_tool
  (tool_name : string) (arguments : value) (net : network) (g : globals) : outcome :=
  let arguments := if is_none arguments then VDict [] else arguments in
  let payload :=
    VDict [("jsonrpc", VStr "2.0");
           ("id", VInt (request_id_counter g));
           ("method", VStr "tools/call");
           ("params", VDict [("name", VStr tool_name); ("arguments", arguments)])] in
  let g := {| session := session g; request_id_counter := request_id_counter g + 1 |} in
  let (req, r) := try_body (session g) net payload in
  {| returned := except_RequestException r; globals_after := g; sent := req |}.

End Transport.

(** ** The registered tools *)

(** A parameter of a tool function as its [def] line declares it: name,
    annotation, and the default when it has one. *)
Inductive annotation : Type := Tstr | Tint | Tbool.

Record param : Type :=
  { p_name : string; p_type : annotation; p_default : option value }.

Definition required (n : string) (t : annotation) : param :=
  {| p_name := n; p_type := t; p_default := None |}.

Definition optional (n : string) (t : annotation) (d : value) : param :=
  {| p_name := n; p_type := t; p_default := Some d |}.

(** A tool function: the name it is registered under, its parameters, and
    its body, which from the local variables computes the two arguments of
    the call of [call_proxypin_tool] it returns. *)
Record tool : Type :=
  { t_name : string;
    t_params : list param;
    t_call : (string -> value) -> string * value }.

Definition find_param (k : string) (ps : list param) : option param :=
  find (fun p => String.eqb k (p_name p)) ps.

(** Binding of a keyword call: the call is accepted when every keyword is a
    declared parameter and every parameter without default is given; a
    local variable then holds the given value, else the default. *)
Definition accepts (ps : list param) (kw : dict) : bool :=
  forallb (fun kv => match find_param (fst kv) ps with Some _ => true | None => false end) kw
  && forallb (fun p => match p_default p, dict_get (p_name p) kw with
                       | None, None => false
                       | _, _ => true
                       end) ps.

Definition bound (ps : list param) (kw : dict) (x : string) : value :=
  match dict_get x kw with
  | Some v => v
  | None =>
      match find_param x ps with
      | Some p => match p_default p with Some d => d | None => VNone end
      | None => VNone
      end
  end.

(** [if c: d[k] = v] *)
Definition set_if (c : bool) (k : string) (v : value) (d : dict) : dict :=
  if c then dict_set k v d else d.

Definition search_requests : tool :=
  {| t_name := "search_requests";
     t_params :=
       [optional "query" Tstr VNone; optional "method" Tstr VNone;
        optional "status_code" Tstr VNone; optional "domain" Tstr VNone;
        optional "header_search" Tstr VNone;
        optional "request_body_search" Tstr VNone;
        optional "response_body_search" Tstr VNone;
        optional "min_duration" Tint VNone; optional "max_duration" Tint VNone;
        optional "limit" Tint (VInt 20)];
     t_call := fun L =>
       let args := [("limit", L "limit")] in
       let args := set_if (truthy (L "query")) "query" (L "query") args in
       let args := set_if (truthy (L "method")) "method" (L "method") args in
       let args := set_if (truthy (L "status_code")) "status_code" (L "status_code") args in
       let args := set_if (truthy (L "domain")) "domain" (L "domain") args in
       let args :=
         set_if (truthy (L "header_search")) "header_search" (L "header_search") args in
       let args :=
         set_if (truthy (L "request_body_search"))
           "request_body_search" (L "request_body_search") args in
       let args :=
         set_if (truthy (L "response_body_search"))
           "response_body_search" (L "response_body_search") args in
       let args :=
         set_if (negb (is_none (L "min_duration"))) "min_duration" (L "min_duration") args in
       let args :=
         set_if (negb (is_none (L "max_duration"))) "max_duration" (L "max_duration") args in
       ("search_requests", VDict args) |}.

Definition get_request_details : tool :=
  {| t_name := "get_request_details";
     t_params := [required "request_id" Tstr];
     t_call := fun L =>
       ("get_request_details", VDict [("request_id", L "request_id")]) |}.

Definition replay_request : tool :=
  {| t_name := "replay_request";
     t_params := [required "request_id" Tstr];
     t_call := fun L => ("replay_request", VDict [("request_id", L "request_id")]) |}.

Definition generate_code : tool :=
  {| t_name := "generate_code";
     t_params := [required "request_id" Tstr; optional "language" Tstr (VStr "python")];
     t_call := fun L =>
       ("generate_code",
        VDict [("request_id", L "request_id"); ("language", L "language")]) |}.

Definition get_curl : tool :=
  {| t_name := "get_curl";
     t_params := [required "request_id" Tstr];
     t_call := fun L => ("get_curl", VDict [("request_id", L "request_id")]) |}.

Definition block_url : tool :=
  {| t_name := "block_url";
     t_params :=
       [required "url_pattern" Tstr; optional "block_type" Tstr (VStr "blockRequest")];
     t_call := fun L =>
       ("block_url",
        VDict [("url_pattern", L "url_pattern"); ("block_type", L "block_type")]) |}.

Definition add_response_rewrite : tool :=
  {| t_name := "add_response_rewrite";
     t_params :=
       [required "url_pattern" Tstr; required "rewrite_type" Tstr;
        required "value" Tstr; optional "key" Tstr VNone];
     t_call := fun L =>
       let args :=
         [("url_pattern", L "url_pattern"); ("rewrite_type", L "rewrite_type");
          ("value", L "value")] in
       let args := set_if (truthy (L "key")) "key" (L "key") args in
       ("add_response_rewrite", VDict args) |}.

Definition add_request_rewrite : tool :=
  {| t_name := "add_request_rewrite";
     t_params :=
       [required "url_pattern" Tstr; required "rewrite_type" Tstr;
        required "key" Tstr; required "value" Tstr];
     t_call := fun L =>
       ("add_request_rewrite",
        VDict [("url_pattern", L "url_pattern"); ("rewrite_type", L "rewrite_type");
               ("key", L "key"); ("value", L "value")]) |}.

Definition update_script : tool :=
  {| t_name := "update_script";
     t_params :=
       [required "name" Tstr; required "url_pattern" Tstr;
        required "script_content" Tstr];
     t_call := fun L =>
       ("update_script",
        VDict [("name", L "name"); ("url_pattern", L "url_pattern");
               ("script_content", L "script_content")]) |}.

Definition get_scripts : tool :=
  {| t_name := "get_scripts"; t_params := [];
     t_call := fun _ => ("get_scripts", VNone) |}.

Definition set_config : tool :=
  {| t_name := "set_config";
     t_params := [optional "system_proxy" Tbool VNone; optional "ssl_capture" Tbool VNone];
     t_call := fun L =>
       let args := [] in
       let args :=
         set_if (negb (is_none (L "system_proxy"))) "system_proxy" (L "system_proxy") args in
       let args :=
         set_if (negb (is_none (L "ssl_capture"))) "ssl_capture" (L "ssl_capture") args in
       ("set_config", VDict args) |}.

Definition add_host_mapping : tool :=
  {| t_name := "add_host_mapping";
     t_params := [required "domain" Tstr; required "ip" Tstr];
     t_call := fun L =>
       ("add_host_mapping", VDict [("domain", L "domain"); ("ip", L "ip")]) |}.

Definition get_proxy_status : tool :=
  {| t_name := "get_proxy_status"; t_params := [];
     t_call := fun _ => ("get_proxy_status", VNone) |}.

Definition export_har : tool :=
  {| t_name := "export_har";
     t_params := [optional "limit" Tint (VInt 100)];
     t_call := fun L => ("export_har", VDict [("limit", L "limit")]) |}.

Definition import_har : tool :=
  {| t_name := "import_har";
     t_params := [required "har_content" Tstr];
     t_call := fun L => ("import_har", VDict [("har_content", L "har_content")]) |}.

Definition start_proxy : tool :=
  {| t_name := "start_proxy";
     t_params := [optional "port" Tint (VInt 9099)];
     t_call := fun L => ("start_proxy", VDict [("port", L "port")]) |}.

Definition stop_proxy : tool :=
  {| t_name := "stop_proxy"; t_params := [];
     t_call := fun _ => ("stop_proxy", VNone) |}.

Definition get_recent_requests : tool :=
  {| t_name := "get_recent_requests";
     t_params :=
       [optional "limit" Tint (VInt 20); optional "url_filter" Tstr VNone;
        optional "method" Tstr VNone];
     t_call := fun L =>
       let args := [("limit", L "limit")] in
       let args := set_if (truthy (L "url_filter")) "url_filter" (L "url_filter") args in
       let args := set_if (truthy (L "method")) "method" (L "method") args in
       ("get_recent_requests", VDict args) |}.

Definition clear_requests : tool :=
  {| t_name := "clear_requests"; t_params := [];
     t_call := fun _ => ("clear_requests", VNone) |}.

Definition get_statistics : tool :=
  {| t_name := "get_statistics"; t_params := [];
     t_call := fun _ => ("get_statistics", VNone) |}.

Definition compare_requests : tool :=
  {| t_name := "compare_requests";
     t_params := [required "request_id_1" Tstr; required "request_id_2" Tstr];
     t_call := fun L =>
       ("compare_requests",
        VDict [("request_id_1", L "request_id_1"); ("request_id_2", L "request_id_2")]) |}.

Definition find_similar_requests : tool :=
  {| t_name := "find_similar_requests";
     t_params := [required "request_id" Tstr; optional "limit" Tint (VInt 10)];
     t_call := fun L =>
       ("find_similar_requests",
        VDict [("request_id", L "request_id"); ("limit", L "limit")]) |}.

Definition extract_api_endpoints : tool :=
  {| t_name := "extract_api_endpoints";
     t_params := [optional "domain_filter" Tstr VNone];
     t_call := fun L =>
       let args := [] in
       let args :=
         set_if (truthy (L "domain_filter")) "domain_filter" (L "domain_filter") args in
       ("extract_api_endpoints", VDict args) |}.

(** The tools registered with [@mcp.tool()], in the order of the file. *)
Definition mcp_tools : list tool :=
  [search_requests; get_request_details; replay_request; generate_code; get_curl;
   block_url; add_response_rewrite; add_request_rewrite; update_script; get_scripts;
   set_config; add_host_mapping; get_proxy_status; export_har; import_har;
   start_proxy; stop_proxy; get_recent_requests; clear_requests; get_statistics;
   compare_requests; find_similar_requests; extract_api_endpoints].

(** ** Calling the tools *)

(** What a keyword call of a tool function leaves behind.  A call that
    Python refuses to bind raises [TypeError] before the body runs, so no
    request is sent.  The functions are called as Python calls them; the
    schema validation that FastMCP puts in front of a registered function
    is not part of the file. *)
Record tool_outcome : Type :=
  { t_returned : result value; t_globals : globals; t_sent : option request }.

(** One call of the transport function, and one keyword call of a tool,
    each with the network it meets. *)
Record call : Type := { c_tool : string; c_arguments : value; c_net : network }.

Record invocation : Type := { i_tool : tool; i_kwargs : dict; i_net : network }.

Section Server.

Variable cfg : config.
Variable json_loads : string -> value + string.
Variable isprintable : N -> bool.

Definition invoke (t : tool) (kw : dict) (net : network) (g : globals) : tool_outcome :=
  if accepts (t_params t) kw then
    let (name, arguments) := t_call t (bound (t_params t) kw) in
    let o := call_proxypin_tool cfg json_loads isprintable name arguments net g in
    {| t_returned := returned o; t_globals := globals_after o; t_sent := Some (sent o) |}
  else {| t_returned := Raise TypeError; t_globals := g; t_sent := None |}.

(** Consecutive calls in one process, each starting from the globals the
    previous one left. *)
Fixpoint run_calls (cs : list call) (g : globals) : list outcome :=
  match cs with
  | [] => []
  | c :: cs' =>
      let o := call_proxypin_tool cfg json_loads isprintable (c_tool c) (c_arguments c) (c_net c) g in
      o :: run_calls cs' (globals_after o)
  end.

Fixpoint serve (l : list invocation) (g : globals) : list tool_outcome :=
  match l with
  | [] => []
  | i :: l' =>
      let o := invoke (i_tool i) (i_kwargs i) (i_net i) g in
      o :: serve l' (t_globals o)
  end.

End Server.

(** The globals at the end of a run that started from [g]. *)
Definition globals_at_end (outs : list outcome) (g : globals) : globals :=
  fold_left (fun _ o => globals_after o) outs g.

(** The arguments a tool passes on, with the [None] of a call without
    arguments replaced by the empty dict as the transport function does. *)
Definition passed_arguments (t : tool) (kw : dict) : value :=
  let a := snd (t_call t (bound (t_params t) kw)) in
  if is_none a then VDict [] else a.

(** ** Reading a request and an exception *)

(** The [id] of the envelope a request carries. *)
Definition request_id (req : request) : option value :=
  match req_json req with
  | VDict p => dict_get "id" p
  | _ => None
  end.

(** The argument mapping a request carries: [params.arguments]. *)
Definition outgoing_arguments (req : request) : option value :=
  match req_json req with
  | VDict p =>
      match dict_get "params" p with
      | Some (VDict ps) => dict_get "arguments" ps
      | _ => None
      end
  | _ => None
  end.

(** The class of an exception, without its message. *)
Inductive exn_class : Type :=
| CException
| CRequestException (kind : request_error)
| CJSONDecodeError
| CTypeError
| CAttributeError
| CKeyError
| CIndexError.

Definition class_of (e : exn) : exn_class :=
  match e with
  | Exception _ => CException
  | RequestException k _ => CRequestException k
  | JSONDecodeError _ => CJSONDecodeError
  | TypeError => CTypeError
  | AttributeError => CAttributeError
  | KeyError => CKeyError
  | IndexError => CIndexError
  end.

(** ** Simulated replies

    A response of the default endpoint with the given status line and body,
    a network that answers with it, and the reference decoder with the
    message of its [JSONDecodeError] left empty. *)

Definition response_with (status : Z) (why body : string) : Response :=
  {| status_code := status; reason := why;
     url := MESSAGES_URL default_config; text := body |}.

Definition answering (r : Response) : network :=
  {| ambient_proxy := None; reply := Responded r |}.

Definition failing (kind : request_error) (msg : string) : network :=
  {| ambient_proxy := None; reply := Failed kind msg |}.

Definition reference_loads : string -> value + string :=
  Json.decoder (fun _ => "").

(** The examples are in ASCII, where [repr] does not consult the Unicode
    database; they run with the table that holds no character. *)
Definition ascii_only : N -> bool := fun _ => false.

(** [x] occurs in [s]: the relation that [contains] decides. *)
Definition occurs (x s : string) : Prop := exists a b, s = a ++ x ++ b.

(** The message of the [HTTPError] that [raise_for_status] builds for an
    error status. *)
Definition http_error_message (r : Response) : string :=
  str_int (status_code r)
  ++ (if (status_code r <? 500)%Z then " Client Error: " else " Server Error: ")
  ++ reason r ++ " for url: " ++ url r.

(** An exception that the [except] clause of the transport function does not
    catch: anything but an exception of the requests library. *)
Definition escapes (e : exn) : Prop :=
  match e with
  | RequestException _ _ => False
  | _ => True
  end.

(** ** The argument shaping of the tools, as a table

    What the bodies of the tool functions do with a parameter can be read
    off its declaration.  A parameter without default is forwarded.  A
    parameter whose default is [None] is forwarded when the value passes
    the test the body makes: truthiness for a [str] parameter, [is not
    None] for an [int] or [bool] parameter.  A parameter with any other
    default is always forwarded, the default standing in when the caller
    gives nothing. *)

Definition passes (p : param) (v : value) : bool :=
  match p_type p with
  | Tstr => truthy v
  | Tint | Tbool => negb (is_none v)
  end.

Definition forwarded (p : param) (supplied : option value) : option value :=
  match p_default p with
  | None => supplied
  | Some VNone =>
      match supplied with
      | Some v => if passes p v then Some v else None
      | None => None
      end
  | Some d => Some (match supplied with Some v => v | None => d end)
  end.

Definition expected_argument (t : tool) (kw : dict) (k : string) : option value :=
  match find_param k (t_params t) with
  | Some p => forwarded p (dict_get k kw)
  | None => None
  end.

(** A message that [repr] leaves as it is between its quotes: printable
    ASCII, no backslash, and not both kinds of quote. *)
Fixpoint printable (s : string) : bool :=
  match s with
  | EmptyString => true
  | String c s' =>
      Nat.leb 32 (nat_of_ascii c) && Nat.ltb (nat_of_ascii c) 127
      && negb (Ascii.eqb c backslash) && printable s'
  end.

Definition plain (s : string) : bool :=
  printable s && negb (has_char squote s && has_char dquote s).

(** ** Reading a run of tool calls *)

(** A member of the envelope a request carries, and the names of all its
    members in order. *)
Definition envelope_member (k : string) (req : request) : option value :=
  match req_json req with
  | VDict p => dict_get k p
  | _ => None
  end.

Definition envelope_keys (req : request) : list string :=
  match req_json req with
  | VDict p => map fst p
  | _ => []
  end.

(** The remote method a request asks for: [params.name]. *)
Definition remote_name (req : request) : option value :=
  match envelope_member "params" req with
  | Some (VDict ps) => dict_get "name" ps
  | _ => None
  end.

(** The requests that a run of tool calls has sent, in order. *)
Definition sent_requests (outs : list tool_outcome) : list request :=
  flat_map (fun o => match t_sent o with Some req => [req] | None => [] end) outs.

(** Whether Python binds the keyword call. *)
Definition accepted (i : invocation) : bool :=
  accepts (t_params (i_tool i)) (i_kwargs i).

(** The globals at the end of a run of tool calls that started from [g]. *)
Definition globals_after_serving (outs : list tool_outcome) (g : globals) : globals :=
  fold_left (fun _ o => t_globals o) outs g.


(** [v == "error"] *)
Definition is_error_word (v : value) : bool :=
  match v with
  | VStr s => String.eqb s "error"
  | _ => false
  end.

(** * Verification *)

(** ** The request id counter and the session *)

Section TransportFacts.

Variable cfg : config.
Variable json_loads : string -> value + string.
Variable isprintable : N -> bool.

Lemma call_counter (name : string) (args : value) (net : network) (g : globals) :
  request_id_counter (globals_after (call_proxypin_tool cfg json_loads isprintable name args net g))
  = (request_id_counter g + 1)%Z.
Proof. reflexivity. Qed.

Lemma call_request_id (name : string) (args : value) (net : network) (g : globals) :
  request_id (sent (call_proxypin_tool cfg json_loads isprintable name args net g))
  = Some (VInt (request_id_counter g)).
Proof. reflexivity. Qed.

Lemma call_arguments (name : string) (args : value) (net : network) (g : globals) :
  outgoing_arguments (sent (call_proxypin_tool cfg json_loads isprintable name args net g))
  = Some (if is_none args then VDict [] else args).
Proof. reflexivity. Qed.

(** The ids of consecutive calls count up from the counter they start at. *)
Lemma run_calls_ids (cs : list call) : forall g,
  map (fun o => request_id (sent o)) (run_calls cfg json_loads isprintable cs g)
  = map (fun i => Some (VInt (request_id_counter g + Z.of_nat i))) (seq 0 (length cs)).
Proof.
  induction cs as [|c cs IH]; intros g; [reflexivity|].
  cbn [run_calls length seq map].
  rewrite call_request_id, Z.add_0_r. f_equal.
  rewrite IH, call_counter, <- seq_shift, map_map.
  apply map_ext. intros i. do 2 f_equal. lia.
Qed.

Lemma run_calls_counter (cs : list call) : forall g,
  request_id_counter (globals_at_end (run_calls cfg json_loads isprintable cs g) g)
  = (request_id_counter g + Z.of_nat (length cs))%Z.
Proof.
  unfold globals_at_end.
  induction cs as [|c cs IH]; intros g.
  - cbn. lia.
  - cbn [run_calls fold_left length]. rewrite IH, call_counter. lia.
Qed.

End TransportFacts.

(** ** Dictionaries *)

Lemma dict_get_set (k k' : string) (v : value) (d : dict) :
  dict_get k (dict_set k' v d) = if String.eqb k k' then Some v else dict_get k d.
Proof.
  induction d as [|[k0 v0] d IH]; cbn.
  - reflexivity.
  - destruct (String.eqb_spec k' k0) as [->|Hk']; cbn.
    + destruct (String.eqb k k0); reflexivity.
    + rewrite IH. destruct (String.eqb_spec k k0) as [->|Hk].
      * destruct (String.eqb_spec k0 k') as [E|_]; [congruence|reflexivity].
      * reflexivity.
Qed.

Lemma dict_get_set_if (c : bool) (k k' : string) (v : value) (d : dict) :
  dict_get k (set_if c k' v d)
  = if c && String.eqb k k' then Some v else dict_get k d.
Proof. destruct c; cbn; [apply dict_get_set|reflexivity]. Qed.

(** ** The tools follow the table *)

Ltac eval_eqb :=
  repeat match goal with
    | |- context [String.eqb ?a ?b] =>
        let r := eval vm_compute in (String.eqb a b) in
        progress change (String.eqb a b) with r
    end.

Ltac eval_params :=
  repeat match goal with
    | |- context [find_param ?s ?ps] =>
        let r := eval vm_compute in (find_param s ps) in
        progress change (find_param s ps) with r
    end.

Ltac split_key k :=
  repeat match goal with
    | |- context [String.eqb k ?s] =>
        destruct (String.eqb_spec k s) as [->|?]; [eval_eqb|]
    end.

Ltac tool_table t kw Hacc :=
  eexists; split; [reflexivity|];
  let k := fresh "k" in
  intros k;
  unfold expected_argument, find_param;
  cbn [t_params t_call t snd find p_name optional required];
  rewrite ?dict_get_set_if; cbn [dict_get fst snd];
  split_key k;
  rewrite ?andb_false_r, ?andb_true_r; cbv beta iota;
  unfold bound, forwarded, passes; eval_params;
  cbv beta iota delta [p_default p_type optional required];
  try reflexivity;
  unfold accepts in Hacc; apply andb_prop in Hacc; destruct Hacc as [_ Hacc];
  cbn [forallb p_default p_name required optional t_params t] in Hacc;
  repeat (apply andb_prop in Hacc; let H := fresh "Hgiven" in destruct Hacc as [H Hacc]);
  repeat match goal with
    | |- context [dict_get ?s kw] =>
        destruct (dict_get s kw) as [[]|] eqn:?
    end;
  try reflexivity; try congruence;
  cbn [truthy is_none negb];
  repeat match goal with
    | |- context [if ?c then _ else _] => destruct c
    end;
  try reflexivity.

(** Every registered tool passes on a dict, and what the dict holds under a
    key is what the table says for the parameter of that name. *)
Lemma tools_follow_table (t : tool) (kw : dict) :
  In t mcp_tools ->
  accepts (t_params t) kw = true ->
  exists args, passed_arguments t kw = VDict args
    /\ forall k, dict_get k args = expected_argument t kw k.
Proof.
  intros Ht Hacc. unfold mcp_tools in Ht. cbn [In] in Ht.
  repeat (destruct Ht as [<-|Ht]; [
    match goal with |- context [passed_arguments ?t _] => tool_table t kw Hacc end |]).
  contradiction.
Qed.

(** ** The reference decoder on sample documents *)

Example loads_nested_document :
  Json.loads (Json.q " {'a': [1, -20, true, null, 'x\ty'], 'b': {'c': [[], {}]}, 'a': 'again'} ")
  = Some (VDict [("a", VStr "again");
                 ("b", VDict [("c", VList [VList []; VDict []])])]).
Proof. vm_compute. reflexivity. Qed.

Example loads_escapes :
  Json.loads (Json.q "'tab\t quote\' slash\/ \u0041\u00e9'")
  = Some (VStr ("tab" ++ String "009" (" quote" ++ String dquote " slash/ Aé"))).
Proof. vm_compute. reflexivity. Qed.

Example loads_deep_nesting :
  Json.loads "[[[[[[[[0]]]]]]]]"
  = Some (VList [VList [VList [VList [VList [VList [VList [VList [VInt 0]]]]]]]]).
Proof. vm_compute. reflexivity. Qed.

Example loads_refuses :
  map Json.loads
    ["[1,]"; Json.q "{'a':1,}"; "01"; "-"; "nul"; Json.q "'open"; "{} {}"; ""; "1.e5"]
  = [None; None; None; None; None; None; None; None; None].
Proof. vm_compute. reflexivity. Qed.

(** ** Request ids *)

(** C2: in one process, the n-th call of the transport function sends the
    request id n.  For any sequence of calls, whatever the tool names, the
    arguments and the fate of each exchange, the ids sent are 1, 2, ..., up
    to the number of calls; no id occurs twice; and the counter ends one
    above the number of calls. *)
Theorem C2_request_ids_count_up_from_one
  (cfg : config) (json_loads : string -> value + string)
  (isprintable : N -> bool) (cs : list call) :
  let outs := run_calls cfg json_loads isprintable cs module_globals in
  let ids := map (fun o => request_id (sent o)) outs in
  ids = map (fun n => Some (VInt (Z.of_nat n))) (seq 1 (length cs))
  /\ NoDup ids
  /\ request_id_counter (globals_at_end outs module_globals) = (Z.of_nat (length cs) + 1)%Z.
Proof.
  cbv zeta.
  assert (Hids : map (fun o => request_id (sent o)) (run_calls cfg json_loads isprintable cs module_globals)
                 = map (fun n => Some (VInt (Z.of_nat n))) (seq 1 (length cs))).
  { rewrite run_calls_ids, <- seq_shift, map_map.
    apply map_ext. intros i. cbn [request_id_counter module_globals].
    do 2 f_equal. lia. }
  split; [exact Hids|split].
  - rewrite Hids. apply Injective_map_NoDup; [|apply seq_NoDup].
    intros a b E. injection E as E. lia.
  - rewrite run_calls_counter. cbn [request_id_counter module_globals]. lia.
Qed.

(** ** No proxy *)

Section ProxyFacts.

Variable cfg : config.
Variable json_loads : string -> value + string.
Variable isprintable : N -> bool.

Lemma invoke_session (t : tool) (kw : dict) (net : network) (g : globals) :
  session (t_globals (invoke cfg json_loads isprintable t kw net g)) = session g.
Proof.
  unfold invoke. destruct (accepts (t_params t) kw); [|reflexivity].
  destruct (t_call t (bound (t_params t) kw)). reflexivity.
Qed.

Lemma invoke_proxy (t : tool) (kw : dict) (net : network) (g : globals) (req : request) :
  t_sent (invoke cfg json_loads isprintable t kw net g) = Some req ->
  req_proxy req = select_proxy (session g) (ambient_proxy net).
Proof.
  unfold invoke. destruct (accepts (t_params t) kw); [|discriminate].
  destruct (t_call t (bound (t_params t) kw)). cbn [t_sent].
  intros E. injection E as <-. reflexivity.
Qed.

(** While the session does not trust the environment and has no proxy of
    its own, no request of a run goes through a proxy. *)
Lemma serve_without_proxy (l : list invocation) : forall g,
  trust_env (session g) = false -> proxies (session g) = None ->
  Forall (fun o => forall req, t_sent o = Some req -> req_proxy req = None)
         (serve cfg json_loads isprintable l g).
Proof.
  induction l as [|i l IH]; intros g Htrust Hown; cbn [serve]; constructor.
  - intros req Hreq. rewrite (invoke_proxy _ _ _ _ _ Hreq).
    unfold select_proxy. rewrite Hown, Htrust. reflexivity.
  - apply IH; rewrite invoke_session; assumption.
Qed.

End ProxyFacts.

(** C9: every request the bridge sends leaves without a proxy.  In any run
    of tool calls from the freshly loaded module, whatever the tools, the
    keyword arguments and the proxy the environment advertises at each
    call, a call either sends nothing or sends a request whose proxy is
    none. *)
Theorem C9_requests_bypass_ambient_proxy
  (cfg : config) (json_loads : string -> value + string)
  (isprintable : N -> bool) (l : list invocation) :
  Forall (fun o => match t_sent o with
                   | Some req => req_proxy req = None
                   | None => True
                   end)
         (serve cfg json_loads isprintable l module_globals).
Proof.
  eapply Forall_impl; [|apply serve_without_proxy; reflexivity].
  intros o H. cbv beta in H.
  destruct (t_sent o) as [req|]; [apply H; reflexivity|exact I].
Qed.

(** A session left as the library creates it would follow the environment:
    it is the assignment to [trust_env] that keeps the proxy out. *)
Lemma fresh_session_follows_environment (p : string) :
  select_proxy new_Session (Some p) = Some p
  /\ select_proxy (session module_globals) (Some p) = None.
Proof. split; reflexivity. Qed.

(** ** Outgoing arguments *)

(** C8: [search_requests()] with no keyword argument sends an argument
    mapping whose only entry is [limit] with the value 20. *)
Theorem C8_search_requests_without_arguments
  (cfg : config) (json_loads : string -> value + string)
  (isprintable : N -> bool) (net : network) (g : globals) :
  option_map outgoing_arguments (t_sent (invoke cfg json_loads isprintable search_requests [] net g))
  = Some (Some (VDict [("limit", VInt 20)])).
Proof.
  unfold invoke.
  change (accepts (t_params search_requests) []) with true.
  cbn [t_call search_requests bound dict_get].
  cbn [t_sent option_map]. rewrite call_arguments.
  reflexivity.
Qed.

(** ** Unwrapping the reply *)

Lemma raise_for_status_passes (r : Response) :
  (status_code r < 400 \/ 600 <= status_code r)%Z -> raise_for_status r = Return tt.
Proof.
  intros H. unfold raise_for_status.
  destruct (400 <=? status_code r)%Z eqn:E1; destruct (status_code r <? 500)%Z eqn:E2;
    destruct (500 <=? status_code r)%Z eqn:Eloads; destruct (status_code r <? 600)%Z eqn:E4;
    cbn; try reflexivity; lia.
Qed.

(** The builtins never raise an exception of the requests library, so what
    they raise escapes the [except] clause. *)

Lemma py_in_raises (x : string) (c : value) (e : exn) :
  py_in x c = Raise e -> escapes e.
Proof. destruct c; cbn; intros E; inversion E; exact I. Qed.

Lemma py_getitem_raises (c : value) (k : string) (e : exn) :
  py_getitem c k = Raise e -> escapes e.
Proof.
  destruct c; cbn; try (intros E; inversion E; exact I).
  destruct (dict_get k items); intros E; inversion E; exact I.
Qed.

Lemma py_get_raises (c : value) (k : string) (d : value) (e : exn) :
  py_get c k d = Raise e -> escapes e.
Proof. destruct c; cbn; intros E; inversion E; exact I. Qed.

Lemma py_first_raises (c : value) (e : exn) :
  py_first c = Raise e -> escapes e.
Proof.
  destruct c as [| | | |s|l|d]; cbn; try (intros E; inversion E; exact I).
  - destruct s; intros E; inversion E; exact I.
  - destruct l; intros E; inversion E; exact I.
Qed.

Lemma py_json_loads_raises (loads : string -> value + string) (t : value) (e : exn) :
  py_json_loads loads t = Raise e -> escapes e.
Proof.
  destruct t; cbn; try (intros E; inversion E; exact I).
  destruct (loads s); intros E; inversion E; exact I.
Qed.

Lemma except_lets_through (e : exn) :
  escapes e -> except_RequestException (Raise e) = Raise e.
Proof. destruct e; cbn; intros H; reflexivity || contradiction. Qed.

Create HintDb raises.
#[local] Hint Resolve py_in_raises py_getitem_raises py_get_raises py_first_raises
  py_json_loads_raises : raises.

Ltac run_step :=
  match goal with
  | |- context [bind ?m _] =>
      let E := fresh "E" in
      destruct m eqn:E; cbn [bind];
      [|apply except_lets_through; eauto with raises]
  end.

Section Unwrapping.

Variable cfg : config.
Variable json_loads : string -> value + string.
Variable isprintable : N -> bool.

(** What the transport function returns once the reply is a response that
    passes the status check and whose body decodes to [result]. *)
Lemma call_on_decoded_body
  (name : string) (args : value) (net : network) (g : globals)
  (r : Response) (result : value) :
  reply net = Responded r ->
  (status_code r < 400 \/ 600 <= status_code r)%Z ->
  json_loads (text r) = inl result ->
  returned (call_proxypin_tool cfg json_loads isprintable name args net g)
  = (has_error <- py_in "error" result ;;
     if has_error : bool then
       err <- py_getitem result "error" ;;
       Raise (Exception ("MCP Error: " ++ py_str isprintable err))
     else
       res <- py_get result "result" (VDict []) ;;
       content <- py_get res "content" (VList []) ;;
       if truthy content then
         first <- py_first content ;;
         text <- py_get first "text" (VStr "{}") ;;
         py_json_loads json_loads text
       else Return (VDict [])).
Proof.
  intros Hreply Hstatus Hbody.
  unfold call_proxypin_tool, try_body, post. cbn [returned].
  rewrite Hreply. cbn [bind].
  rewrite (raise_for_status_passes r Hstatus). cbn [bind].
  unfold json. rewrite Hbody. cbn [bind].
  run_step. destruct a.
  - run_step. reflexivity.
  - run_step. run_step. destruct (truthy a0); [|reflexivity].
    run_step. run_step.
    destruct (py_json_loads json_loads a2) eqn:Eloads; [reflexivity|].
    apply except_lets_through; eauto with raises.
Qed.

End Unwrapping.

Lemma success_status_passes (r : Response) :
  (200 <= status_code r < 300)%Z -> (status_code r < 400 \/ 600 <= status_code r)%Z.
Proof. lia. Qed.

(** C1: on a successful response (a 2xx status, a body that decodes to an
    object without [error] member, whose [result.content] is a list), the
    transport function returns an empty object when the list is empty, and
    otherwise the value that [json.loads] gives for the [text] of the first
    element. *)
Theorem C1_returns_decoded_text_of_first_content
  (cfg : config) (json_loads : string -> value + string)
  (isprintable : N -> bool)
  (name : string) (args : value) (net : network) (g : globals)
  (r : Response) (body res : dict) (content : list value) :
  reply net = Responded r ->
  (200 <= status_code r < 300)%Z ->
  json_loads (text r) = inl (VDict body) ->
  dict_get "error" body = None ->
  dict_get "result" body = Some (VDict res) ->
  dict_get "content" res = Some (VList content) ->
  match content with
  | [] => returned (call_proxypin_tool cfg json_loads isprintable name args net g) = Return (VDict [])
  | first :: _ =>
      forall (item : dict) (t : string) (v : value),
        first = VDict item ->
        dict_get "text" item = Some (VStr t) ->
        json_loads t = inl v ->
        returned (call_proxypin_tool cfg json_loads isprintable name args net g) = Return v
  end.
Proof.
  intros Hreply Hstatus Hbody Herror Hresult Hcontent.
  rewrite (call_on_decoded_body cfg json_loads isprintable name args net g r (VDict body)
             Hreply (success_status_passes r Hstatus) Hbody).
  cbn [py_in py_get bind]. rewrite Herror, Hresult. cbn [py_get bind].
  rewrite Hcontent. destruct content as [|first rest]; [reflexivity|].
  intros item t v -> Htext Hloads.
  cbn [truthy py_first py_get bind]. rewrite Htext.
  cbn [py_json_loads]. rewrite Hloads. reflexivity.
Qed.

(** The two simulated replies of the specification, run with the reference
    decoder: content text [{"a":1}] gives the object [{"a": 1}], empty
    content gives the empty object. *)
Lemma C1_round_trip_examples :
  let run (doc : string) :=
    returned (call_proxypin_tool default_config reference_loads ascii_only "get_statistics" VNone
                (answering (response_with 200 "OK" (Json.q doc))) module_globals) in
  run "{'result':{'content':[{'text':'{\'a\':1}'}]}}" = Return (VDict [("a", VInt 1)])
  /\ run "{'result':{'content':[]}}" = Return (VDict []).
Proof.
  cbv zeta. split.
  - apply (C1_returns_decoded_text_of_first_content
             default_config reference_loads ascii_only "get_statistics" VNone
             (answering (response_with 200 "OK"
                (Json.q "{'result':{'content':[{'text':'{\'a\':1}'}]}}")))
             module_globals
             (response_with 200 "OK" (Json.q "{'result':{'content':[{'text':'{\'a\':1}'}]}}"))
             [("result", VDict [("content", VList [VDict [("text", VStr (Json.q "{'a':1}"))]])])]
             [("content", VList [VDict [("text", VStr (Json.q "{'a':1}"))]])]
             [VDict [("text", VStr (Json.q "{'a':1}"))]])
      with (item := [("text", VStr (Json.q "{'a':1}"))]) (t := Json.q "{'a':1}");
      cbn [status_code response_with]; try lia; vm_compute; reflexivity.
  - apply (C1_returns_decoded_text_of_first_content
             default_config reference_loads ascii_only "get_statistics" VNone
             (answering (response_with 200 "OK" (Json.q "{'result':{'content':[]}}")))
             module_globals
             (response_with 200 "OK" (Json.q "{'result':{'content':[]}}"))
             [("result", VDict [("content", VList [])])]
             [("content", VList [])] []);
      cbn [status_code response_with]; try lia; vm_compute; reflexivity.
Defined.

(** C10: when the first element of [result.content] is an object without
    [text] member, the transport function decodes the string [{}] in its
    place, so with a decoder that reads [{}] as the empty object the call
    does not fail and returns the empty object. *)
Theorem C10_missing_text_gives_empty_object
  (cfg : config) (json_loads : string -> value + string)
  (isprintable : N -> bool)
  (name : string) (args : value) (net : network) (g : globals)
  (r : Response) (body res item : dict) (rest : list value) :
  reply net = Responded r ->
  (200 <= status_code r < 300)%Z ->
  json_loads (text r) = inl (VDict body) ->
  dict_get "error" body = None ->
  dict_get "result" body = Some (VDict res) ->
  dict_get "content" res = Some (VList (VDict item :: rest)) ->
  dict_get "text" item = None ->
  json_loads "{}" = inl (VDict []) ->
  returned (call_proxypin_tool cfg json_loads isprintable name args net g)
  = py_json_loads json_loads (VStr "{}")
  /\ returned (call_proxypin_tool cfg json_loads isprintable name args net g) = Return (VDict []).
Proof.
  intros Hreply Hstatus Hbody Herror Hresult Hcontent Htext Hempty.
  rewrite (call_on_decoded_body cfg json_loads isprintable name args net g r (VDict body)
             Hreply (success_status_passes r Hstatus) Hbody).
  cbn [py_in py_get bind]. rewrite Herror, Hresult. cbn [py_get bind].
  rewrite Hcontent. cbn [truthy py_first py_get bind]. rewrite Htext.
  split; [reflexivity|]. cbn [py_json_loads]. rewrite Hempty. reflexivity.
Qed.

(** A reply whose only content element carries a [type] and no [text]. *)
Lemma C10_missing_text_example :
  returned (call_proxypin_tool default_config reference_loads ascii_only "get_scripts" VNone
              (answering (response_with 200 "OK"
                 (Json.q "{'result':{'content':[{'type':'text'}]}}")))
              module_globals)
  = Return (VDict []).
Proof.
  apply (C10_missing_text_gives_empty_object
           default_config reference_loads ascii_only "get_scripts" VNone
           (answering (response_with 200 "OK"
              (Json.q "{'result':{'content':[{'type':'text'}]}}")))
           module_globals
           (response_with 200 "OK" (Json.q "{'result':{'content':[{'type':'text'}]}}"))
           [("result", VDict [("content", VList [VDict [("type", VStr "text")]])])]
           [("content", VList [VDict [("type", VStr "text")]])]
           [("type", VStr "text")] []);
    cbn [status_code response_with]; try lia; vm_compute; reflexivity.
Defined.

(** ** Failures *)



(** The decode error arises nowhere else: a call that raises it has received
    a response whose body decoded, and it is a string taken from the first
    content element (or the stand-in [{}]) that the decoder refused. *)
Lemma decode_error_only_from_content_text
  (cfg : config) (json_loads : string -> value + string)
  (isprintable : N -> bool)
  (name : string) (args : value) (net : network) (g : globals) (msg : string) :
  returned (call_proxypin_tool cfg json_loads isprintable name args net g) = Raise (JSONDecodeError msg) ->
  exists (r : Response) (result res content first : value) (t : string),
    reply net = Responded r
    /\ json_loads (text r) = inl result
    /\ py_get result "result" (VDict []) = Return res
    /\ py_get res "content" (VList []) = Return content
    /\ py_first content = Return first
    /\ py_get first "text" (VStr "{}") = Return (VStr t)
    /\ json_loads t = inr msg.
Proof.
  unfold call_proxypin_tool, try_body, post. cbn [returned].
  destruct (reply net) as [kind m|r] eqn:Hreply; cbn [bind except_RequestException];
    [discriminate|].
  destruct (raise_for_status r) as [[]|e] eqn:Hstatus; cbn [bind].
  2:{ unfold raise_for_status in Hstatus.
      destruct ((400 <=? status_code r)%Z && (status_code r <? 500)%Z);
        [|destruct ((500 <=? status_code r)%Z && (status_code r <? 600)%Z)];
        inversion Hstatus; subst; discriminate. }
  unfold json. destruct (json_loads (text r)) as [result|m] eqn:Hbody;
    cbn [bind except_RequestException]; [|discriminate].
  destruct (py_in "error" result) as [[|]|e] eqn:Hin; cbn [bind].
  - destruct (py_getitem result "error") as [err|e] eqn:Hget; cbn [bind except_RequestException];
      [discriminate|].
    destruct result; cbn in Hget; try (inversion Hget; subst; discriminate).
    destruct (dict_get "error" items); inversion Hget; subst; discriminate.
  - destruct (py_get result "result" (VDict [])) as [res|e] eqn:Hres; cbn [bind].
    2:{ destruct result; inversion Hres; subst; discriminate. }
    destruct (py_get res "content" (VList [])) as [content|e] eqn:Hcontent; cbn [bind].
    2:{ destruct res; inversion Hcontent; subst; discriminate. }
    destruct (truthy content); [|discriminate].
    destruct (py_first content) as [first|e] eqn:Hfirst; cbn [bind].
    2:{ destruct content as [| | | |[|]|[|]|]; inversion Hfirst; subst; discriminate. }
    destruct (py_get first "text" (VStr "{}")) as [t|e] eqn:Htext; cbn [bind].
    2:{ destruct first; inversion Htext; subst; discriminate. }
    destruct t as [| | | |t| |]; cbn [py_json_loads except_RequestException];
      try discriminate.
    destruct (json_loads t) as [v|m] eqn:Hloads; cbn [except_RequestException];
      [discriminate|].
    intros E. injection E as <-.
    exists r, result, res, content, first, t. repeat split; assumption.
  - destruct result; inversion Hin; subst; discriminate.
Qed.

(** The network outcomes that the transport function reports as a
    connection failure: the library raised while sending, or the response
    came with a 4xx or 5xx status. *)
Lemma call_on_network_failure
  (cfg : config) (json_loads : string -> value + string)
  (isprintable : N -> bool)
  (name : string) (args : value) (net : network) (g : globals)
  (kind : request_error) (msg : string) :
  reply net = Failed kind msg ->
  returned (call_proxypin_tool cfg json_loads isprintable name args net g)
  = Raise (Exception ("ProxyPin连接失败: " ++ msg)).
Proof.
  intros Hreply. unfold call_proxypin_tool, try_body, post. cbn [returned].
  rewrite Hreply. reflexivity.
Qed.

Lemma call_on_error_status
  (cfg : config) (json_loads : string -> value + string)
  (isprintable : N -> bool)
  (name : string) (args : value) (net : network) (g : globals) (r : Response) :
  reply net = Responded r ->
  (400 <= status_code r < 600)%Z ->
  returned (call_proxypin_tool cfg json_loads isprintable name args net g)
  = Raise (Exception ("ProxyPin连接失败: " ++ http_error_message r)).
Proof.
  intros Hreply Hstatus. unfold call_proxypin_tool, try_body, post. cbn [returned].
  rewrite Hreply. cbn [bind]. unfold raise_for_status, http_error_message.
  destruct (status_code r <? 500)%Z eqn:E.
  - replace (400 <=? status_code r)%Z with true by (symmetry; apply Z.leb_le; lia).
    reflexivity.
  - rewrite andb_false_r.
    replace (500 <=? status_code r)%Z with true
      by (symmetry; apply Z.leb_le; apply Z.ltb_ge in E; lia).
    replace (status_code r <? 600)%Z with true by (symmetry; apply Z.ltb_lt; lia).
    reflexivity.
Qed.

(** C4, as the code has it: a network failure and an error status (4xx or
    5xx) end in the same way, with a plain [Exception] whose message is the
    fixed prefix followed by the description the requests library gives of
    the cause: its own message for a network failure, the status line and
    URL for an error status.  The two are not told apart by type, and the
    body of the response is not part of the message. *)
Theorem C4_transport_failures_raise_one_wrapped_exception
  (cfg : config) (json_loads : string -> value + string)
  (isprintable : N -> bool)
  (name : string) (args : value) (net : network) (g : globals) :
  (exists kind msg, reply net = Failed kind msg)
  \/ (exists r, reply net = Responded r /\ (400 <= status_code r < 600)%Z) ->
  exists cause : string,
    returned (call_proxypin_tool cfg json_loads isprintable name args net g)
    = Raise (Exception ("ProxyPin连接失败: " ++ cause))
    /\ match reply net with
       | Failed _ msg => cause = msg
       | Responded r => cause = http_error_message r
       end.
Proof.
  intros [(kind & msg & Hreply)|(r & Hreply & Hstatus)].
  - exists msg. rewrite Hreply. split; [|reflexivity].
    eapply call_on_network_failure; exact Hreply.
  - exists (http_error_message r). rewrite Hreply. split; [|reflexivity].
    apply call_on_error_status; assumption.
Qed.

(** A refused connection, with the message the library gives for it. *)
Lemma C4_refused_connection_example :
  exists cause : string,
    returned (call_proxypin_tool default_config reference_loads ascii_only "get_proxy_status" VNone
                (failing ConnectionError
                   "HTTPConnectionPool(host='127.0.0.1', port=17777): Max retries exceeded with url: /messages (Caused by NewConnectionError('<urllib3.connection.HTTPConnection object at 0x7f3a5c0b3d90>: Failed to establish a new connection: [Errno 111] Connection refused'))")
                module_globals)
    = Raise (Exception ("ProxyPin连接失败: " ++ cause))
    /\ cause = "HTTPConnectionPool(host='127.0.0.1', port=17777): Max retries exceeded with url: /messages (Caused by NewConnectionError('<urllib3.connection.HTTPConnection object at 0x7f3a5c0b3d90>: Failed to establish a new connection: [Errno 111] Connection refused'))".
Proof.
  apply (C4_transport_failures_raise_one_wrapped_exception
           default_config reference_loads ascii_only "get_proxy_status" VNone
           (failing ConnectionError
              "HTTPConnectionPool(host='127.0.0.1', port=17777): Max retries exceeded with url: /messages (Caused by NewConnectionError('<urllib3.connection.HTTPConnection object at 0x7f3a5c0b3d90>: Failed to establish a new connection: [Errno 111] Connection refused'))")
           module_globals).
  left. eexists. eexists. reflexivity.
Defined.

(** C4 as stated fails.  A 503 response and a refused connection raise
    exceptions of one and the same class, so the two failures are not two
    distinct typed errors; the message for the 503 response does not hold
    its body; and a response with status 300, which is not a 2xx status, is
    unwrapped like a successful one. *)
Lemma C4_status_and_network_failure_share_a_class :
  let run (net : network) :=
    returned (call_proxypin_tool default_config reference_loads ascii_only "get_proxy_status" VNone
                net module_globals) in
  let refused :=
    failing ConnectionError
      "HTTPConnectionPool(host='127.0.0.1', port=17777): Max retries exceeded with url: /messages (Caused by NewConnectionError('<urllib3.connection.HTTPConnection object at 0x7f3a5c0b3d90>: Failed to establish a new connection: [Errno 111] Connection refused'))" in
  exists e1 e2 : exn,
    run (answering (response_with 503 "Service Unavailable" "upstream down")) = Raise e1
    /\ run refused = Raise e2
    /\ class_of e1 = class_of e2
    /\ e1 = Exception "ProxyPin连接失败: 503 Server Error: Service Unavailable for url: http://127.0.0.1:17777/messages"
    /\ contains "ProxyPin连接失败: 503 Server Error: Service Unavailable for url: http://127.0.0.1:17777/messages" "upstream down" = false
    /\ run (answering (response_with 300 "Multiple Choices" (Json.q "{'result':{'content':[]}}")))
       = Return (VDict []).
Proof.
  cbv zeta. eexists. eexists.
  split; [vm_compute; reflexivity|].
  split; [vm_compute; reflexivity|].
  repeat split; vm_compute; reflexivity.
Qed.

(** ** Substrings *)

Lemma append_assoc (a b c : string) : (a ++ b) ++ c = a ++ b ++ c.
Proof. induction a as [|x a IH]; cbn; [|rewrite IH]; reflexivity. Qed.

Lemma append_nil_r (a : string) : a ++ "" = a.
Proof. induction a as [|x a IH]; cbn; [|rewrite IH]; reflexivity. Qed.

Lemma prefix_append (x b : string) : String.prefix x (x ++ b) = true.
Proof.
  induction x as [|c x IH]; cbn; [destruct b; reflexivity|].
  destruct (ascii_dec c c); [exact IH|contradiction].
Qed.

Lemma contains_unfold (s x : string) :
  contains s x
  = String.prefix x s || match s with
                         | EmptyString => false
                         | String _ s' => contains s' x
                         end.
Proof. destruct s; reflexivity. Qed.

Lemma contains_occurs (s x : string) : occurs x s -> contains s x = true.
Proof.
  intros (a & b & ->). induction a as [|c a IH].
  - cbn [append]. rewrite contains_unfold, prefix_append. reflexivity.
  - cbn [append contains]. rewrite IH. apply orb_true_r.
Qed.

Lemma occurs_refl (x : string) : occurs x x.
Proof. exists "", "". cbn. rewrite append_nil_r. reflexivity. Qed.

Lemma occurs_left (x s t : string) : occurs x s -> occurs x (t ++ s).
Proof.
  intros (a & b & ->). exists (t ++ a), b. rewrite append_assoc. reflexivity.
Qed.

Lemma occurs_right (x s t : string) : occurs x s -> occurs x (s ++ t).
Proof.
  intros (a & b & ->). exists a, (b ++ t). rewrite !append_assoc. reflexivity.
Qed.

Lemma occurs_trans (x y z : string) : occurs x y -> occurs y z -> occurs x z.
Proof.
  intros Hxy (a & b & ->). apply occurs_left, occurs_right, Hxy.
Qed.

Lemma occurs_cons (x s : string) (c : ascii) : occurs x s -> occurs x (String c s).
Proof. intros H. apply (occurs_left x s (String c "")) in H. exact H. Qed.

Lemma occurs_join (sep x : string) (l : list string) :
  In x l -> occurs x (join sep l).
Proof.
  induction l as [|y l IH]; [contradiction|].
  intros [->|Hin].
  - destruct l; cbn [join]; [apply occurs_refl|apply occurs_right, occurs_refl].
  - destruct l as [|z l]; [contradiction|].
    change (join sep (y :: z :: l)) with (y ++ sep ++ join sep (z :: l)).
    apply occurs_left, occurs_left, IH, Hin.
Qed.

Lemma dict_get_In (k : string) (d : dict) (v : value) :
  dict_get k d = Some v -> In (k, v) d.
Proof.
  induction d as [|[k0 v0] d IH]; cbn; [discriminate|].
  destruct (String.eqb_spec k k0) as [->|_].
  - intros E. injection E as ->. left. reflexivity.
  - intros E. right. apply IH, E.
Qed.

Section ReprFacts.

Variable isprintable : N -> bool.

(** The [repr] of a member's value occurs in the [repr] of the dict. *)
Lemma occurs_repr_member (k : string) (d : dict) (v : value) :
  dict_get k d = Some v ->
  occurs (py_repr isprintable v) (py_repr isprintable (VDict d)).
Proof.
  intros H. apply dict_get_In in H.
  apply occurs_trans with (repr_str isprintable k ++ ": " ++ py_repr isprintable v).
  - apply occurs_left, occurs_left, occurs_refl.
  - cbn [py_repr]. apply occurs_cons, occurs_right, occurs_join.
    apply in_map_iff. exists (k, v). split; [reflexivity|exact H].
Qed.

(** [repr] leaves a plain string as it is between the quotes. *)
Lemma repr_chars_plain (quote : ascii) (m : string) :
  printable m = true -> has_char quote m = false ->
  repr_chars isprintable quote m = m.
Proof.
  induction m as [|c m IH]; [reflexivity|].
  cbn [printable has_char repr_chars]. intros Hp Hq.
  apply andb_prop in Hp. destruct Hp as [Hp Hm].
  apply andb_prop in Hp. destruct Hp as [Hp Hb].
  apply andb_prop in Hp. destruct Hp as [Hlo Hhi].
  apply orb_false_elim in Hq. destruct Hq as [Hc Hq].
  cbv zeta.
  replace (Nat.ltb (nat_of_ascii c) 128) with true
    by (symmetry; apply Nat.ltb_lt; apply Nat.ltb_lt in Hhi; lia).
  rewrite (IH Hm Hq). unfold repr_char.
  rewrite Ascii.eqb_sym, Hc. apply negb_true_iff in Hb. rewrite Hb.
  apply Nat.leb_le in Hlo. apply Nat.ltb_lt in Hhi.
  replace (Nat.eqb (nat_of_ascii c) 9) with false by (symmetry; apply Nat.eqb_neq; lia).
  replace (Nat.eqb (nat_of_ascii c) 10) with false by (symmetry; apply Nat.eqb_neq; lia).
  replace (Nat.eqb (nat_of_ascii c) 13) with false by (symmetry; apply Nat.eqb_neq; lia).
  replace (Nat.ltb (nat_of_ascii c) 32) with false by (symmetry; apply Nat.ltb_ge; lia).
  replace (Nat.eqb (nat_of_ascii c) 127) with false by (symmetry; apply Nat.eqb_neq; lia).
  reflexivity.
Qed.

Lemma repr_quote_absent (m : string) :
  negb (has_char squote m && has_char dquote m) = true ->
  has_char (repr_quote m) m = false.
Proof.
  unfold repr_quote.
  destruct (has_char squote m) eqn:Hs; destruct (has_char dquote m) eqn:Hd; cbn;
    intros H; try discriminate; assumption.
Qed.

Lemma occurs_repr_plain (m : string) :
  plain m = true -> occurs m (repr_str isprintable m).
Proof.
  unfold plain. intros H. apply andb_prop in H. destruct H as [Hp Hq].
  unfold repr_str. rewrite (repr_chars_plain _ m Hp (repr_quote_absent m Hq)).
  apply occurs_cons, occurs_right, occurs_refl.
Qed.

End ReprFacts.

(** [repr] beyond ASCII, with a table in which the letter U+00E9 and the
    emoji U+1F600 are printable and the no-break space U+00A0 and the
    zero-width space U+200B are not: the string of these four characters
    and a line break. *)
Example repr_beyond_ascii :
  let table (cp : N) := (cp =? 233)%N || (cp =? 128512)%N in
  repr_str table (Json.utf8 233 ++ Json.utf8 160 ++ Json.utf8 8203 ++ Json.utf8 128512
                  ++ String "010" "")
  = "'" ++ Json.utf8 233 ++ "\xa0\u200b" ++ Json.utf8 128512 ++ "\n'".
Proof. vm_compute. reflexivity. Qed.

(** C5, as the code has it: when the body of a response that passes the
    status check is an object with an [error] member, the transport
    function raises a plain [Exception] whose message is [MCP Error: ]
    followed by [str] of that member.  The message does not start with the
    prefix of the connection failures, which is what tells the two apart.
    When the member is an object, the message holds the decimal digits of
    an integer [code], and it holds a [message] string as it is whenever
    that string is plain (printable ASCII, no backslash, not both kinds of
    quote); other characters appear in their escaped form. *)
Theorem C5_remote_error_raises_exception_with_payload
  (cfg : config) (json_loads : string -> value + string)
  (isprintable : N -> bool)
  (name : string) (args : value) (net : network) (g : globals)
  (r : Response) (body : dict) (err : value) :
  reply net = Responded r ->
  (status_code r < 400 \/ 600 <= status_code r)%Z ->
  json_loads (text r) = inl (VDict body) ->
  dict_get "error" body = Some err ->
  let msg := "MCP Error: " ++ py_str isprintable err in
  returned (call_proxypin_tool cfg json_loads isprintable name args net g) = Raise (Exception msg)
  /\ String.prefix "ProxyPin连接失败: " msg = false
  /\ (forall (e : dict) (code : Z),
        err = VDict e -> dict_get "code" e = Some (VInt code) ->
        contains msg (str_int code) = true)
  /\ (forall (e : dict) (m : string),
        err = VDict e -> dict_get "message" e = Some (VStr m) -> plain m = true ->
        contains msg m = true).
Proof.
  intros Hreply Hstatus Hbody Herror msg. subst msg.
  rewrite (call_on_decoded_body cfg json_loads isprintable name args net g r (VDict body)
             Hreply Hstatus Hbody).
  cbn [py_in py_getitem bind]. rewrite Herror. cbn [bind].
  split; [reflexivity|]. split; [reflexivity|]. split.
  - intros e code -> Hcode. apply contains_occurs, occurs_left.
    apply (occurs_repr_member isprintable "code" e (VInt code) Hcode).
  - intros e m -> Hmessage Hplain. apply contains_occurs, occurs_left.
    apply occurs_trans with (repr_str isprintable m); [apply occurs_repr_plain, Hplain|].
    apply (occurs_repr_member isprintable "message" e (VStr m) Hmessage).
Qed.

(** The simulated reply of the specification: error code -32601 with the
    message [method not found]. *)
Lemma C5_method_not_found_example :
  exists msg : string,
    returned (call_proxypin_tool default_config reference_loads ascii_only "no_such_tool" VNone
                (answering (response_with 200 "OK"
                   (Json.q "{'error':{'code':-32601,'message':'method not found'}}")))
                module_globals)
    = Raise (Exception msg)
    /\ msg = "MCP Error: {'code': -32601, 'message': 'method not found'}"
    /\ contains msg "-32601" = true
    /\ contains msg "method not found" = true.
Proof.
  destruct (C5_remote_error_raises_exception_with_payload
              default_config reference_loads ascii_only "no_such_tool" VNone
              (answering (response_with 200 "OK"
                 (Json.q "{'error':{'code':-32601,'message':'method not found'}}")))
              module_globals
              (response_with 200 "OK"
                 (Json.q "{'error':{'code':-32601,'message':'method not found'}}"))
              [("error", VDict [("code", VInt (-32601)); ("message", VStr "method not found")])]
              (VDict [("code", VInt (-32601)); ("message", VStr "method not found")])
              eq_refl (or_introl eq_refl) eq_refl eq_refl)
    as (Hraise & _ & Hcode & Hmessage).
  eexists. split; [exact Hraise|]. split; [reflexivity|]. split.
  - exact (Hcode _ (-32601)%Z eq_refl eq_refl).
  - exact (Hmessage _ "method not found" eq_refl eq_refl eq_refl).
Defined.

(** C5 as stated fails.  For a remote error whose message has two lines,
    the message of the exception holds the line break in its escaped form,
    so the remote message does not occur in it; and the exception is of the
    same class as the one raised when the request times out. *)
Lemma C5_two_line_message_is_escaped :
  let remote_message := "line 1" ++ String "010" "line 2" in
  let run (net : network) :=
    returned (call_proxypin_tool default_config reference_loads ascii_only "replay_request"
                (VDict [("request_id", VStr "7")]) net module_globals) in
  exists (msg : string) (e2 : exn),
    reference_loads (Json.q "{'error':{'code':-32000,'message':'line 1\nline 2'}}")
    = inl (VDict [("error", VDict [("code", VInt (-32000)); ("message", VStr remote_message)])])
    /\ run (answering (response_with 200 "OK"
              (Json.q "{'error':{'code':-32000,'message':'line 1\nline 2'}}")))
       = Raise (Exception msg)
    /\ msg = "MCP Error: {'code': -32000, 'message': 'line 1\nline 2'}"
    /\ contains msg remote_message = false
    /\ run (failing Timeout
              "HTTPConnectionPool(host='127.0.0.1', port=17777): Read timed out. (read timeout=30)")
       = Raise e2
    /\ class_of e2 = class_of (Exception msg).
Proof.
  cbv zeta. eexists. eexists.
  split; [vm_compute; reflexivity|].
  split; [vm_compute; reflexivity|].
  split; [vm_compute; reflexivity|].
  split; [vm_compute; reflexivity|].
  split; vm_compute; reflexivity.
Qed.

(** ** The argument mapping of every tool *)

(** A parameter of a registered tool is the one its name finds. *)
Lemma find_param_declared (t : tool) (p : param) :
  In t mcp_tools -> In p (t_params t) -> find_param (p_name p) (t_params t) = Some p.
Proof.
  intros Ht Hp. unfold mcp_tools in Ht. cbn [In] in Ht.
  repeat (destruct Ht as [<-|Ht]; [
    cbn in Hp; repeat (destruct Hp as [<-|Hp]; [vm_compute; reflexivity|]); contradiction |]).
  contradiction.
Qed.

Lemma find_param_name (k : string) (ps : list param) (p : param) :
  find_param k ps = Some p -> In p ps /\ p_name p = k.
Proof.
  intros H. apply find_some in H. destruct H as [Hin Hk].
  split; [exact Hin|]. symmetry. apply String.eqb_eq, Hk.
Qed.

Ltac registered :=
  unfold mcp_tools; repeat first [left; reflexivity | right].

(** An accepted call sends one request, which carries the arguments the tool
    passes on. *)
Lemma invoke_sends_passed_arguments
  (cfg : config) (json_loads : string -> value + string)
  (isprintable : N -> bool)
  (t : tool) (kw : dict) (net : network) (g : globals) :
  accepts (t_params t) kw = true ->
  exists req, t_sent (invoke cfg json_loads isprintable t kw net g) = Some req
    /\ outgoing_arguments req = Some (passed_arguments t kw).
Proof.
  intros Hacc. unfold invoke, passed_arguments. rewrite Hacc.
  destruct (t_call t (bound (t_params t) kw)) as [name a]. cbn [t_sent snd].
  eexists. split; [reflexivity|]. apply call_arguments.
Qed.

(** C7, as the code has it: when the caller gives exactly the parameters
    that have no default, the outgoing mapping holds the given value for
    each of them, and besides, for every parameter declared with a default
    other than [None] ([limit], [language], [block_type], [port]), that
    default; a parameter whose default is [None] has no key. *)
Theorem C7_required_only_call_sends_required_and_valued_defaults
  (cfg : config) (json_loads : string -> value + string)
  (isprintable : N -> bool)
  (t : tool) (kw : dict) (net : network) (g : globals) :
  In t mcp_tools ->
  accepts (t_params t) kw = true ->
  (forall p, In p (t_params t) -> p_default p <> None -> dict_get (p_name p) kw = None) ->
  exists (req : request) (args : dict),
    t_sent (invoke cfg json_loads isprintable t kw net g) = Some req
    /\ outgoing_arguments req = Some (VDict args)
    /\ forall k,
         dict_get k args
         = match find_param k (t_params t) with
           | Some p =>
               match p_default p with
               | None => dict_get k kw
               | Some VNone => None
               | Some d => Some d
               end
           | None => None
           end.
Proof.
  intros Ht Hacc Honly.
  destruct (invoke_sends_passed_arguments cfg json_loads isprintable t kw net g Hacc) as (req & Hsent & Hout).
  destruct (tools_follow_table t kw Ht Hacc) as (args & Hargs & Htable).
  exists req, args. split; [exact Hsent|]. split; [rewrite Hout, Hargs; reflexivity|].
  intros k. rewrite Htable. unfold expected_argument, forwarded.
  destruct (find_param k (t_params t)) as [p|] eqn:Hfind; [|reflexivity].
  apply find_param_name in Hfind. destruct Hfind as [Hin <-].
  destruct (p_default p) as [d|] eqn:Hd; [|reflexivity].
  rewrite (Honly p Hin) by (rewrite Hd; discriminate).
  destruct d; reflexivity.
Qed.

(** [generate_code(request_id="42")]: the request id and the default
    language are sent. *)
Lemma C7_generate_code_example :
  exists (req : request) (args : dict),
    t_sent (invoke default_config reference_loads ascii_only generate_code [("request_id", VStr "42")]
              (failing ConnectionError "Connection refused") module_globals) = Some req
    /\ outgoing_arguments req = Some (VDict args)
    /\ dict_get "request_id" args = Some (VStr "42")
    /\ dict_get "language" args = Some (VStr "python").
Proof.
  destruct (C7_required_only_call_sends_required_and_valued_defaults
              default_config reference_loads ascii_only generate_code [("request_id", VStr "42")]
              (failing ConnectionError "Connection refused") module_globals)
    as (req & args & Hsent & Hout & Hargs).
  - registered.
  - reflexivity.
  - intros p [<-|[<-|[]]] Hd; [contradiction Hd|]; reflexivity.
  - exists req, args. split; [exact Hsent|]. split; [exact Hout|].
    split; [exact (Hargs "request_id")|exact (Hargs "language")].
Defined.

(** C7 as stated fails: [export_har()] is called with its required
    parameters only (it has none), and the mapping it sends holds the key of
    its optional parameter [limit]. *)
Lemma C7_export_har_sends_optional_limit :
  In export_har mcp_tools
  /\ find_param "limit" (t_params export_har) = Some (optional "limit" Tint (VInt 100))
  /\ option_map outgoing_arguments
       (t_sent (invoke default_config reference_loads ascii_only export_har []
                  (failing ConnectionError "Connection refused") module_globals))
     = Some (Some (VDict [("limit", VInt 100)])).
Proof. split; [registered|split; reflexivity]. Qed.

(** C3, as the code has it.  For an optional parameter of a registered tool
    in an accepted call: when its declared default is [None], the key is
    left out if the caller gives nothing or gives a value that fails the
    test of the body (for a [str] parameter any falsy value, so [None] and
    the empty string; for an [int] or [bool] parameter [None] only), and is
    present with exactly the given value otherwise; when its declared
    default is another value, the key is always present, with the given
    value or else the default. *)
Theorem C3_optional_parameter_follows_its_declaration
  (cfg : config) (json_loads : string -> value + string)
  (isprintable : N -> bool)
  (t : tool) (p : param) (d : value) (kw : dict) (net : network) (g : globals) :
  In t mcp_tools ->
  In p (t_params t) ->
  p_default p = Some d ->
  accepts (t_params t) kw = true ->
  exists (req : request) (args : dict),
    t_sent (invoke cfg json_loads isprintable t kw net g) = Some req
    /\ outgoing_arguments req = Some (VDict args)
    /\ dict_get (p_name p) args
       = match dict_get (p_name p) kw with
         | None => if is_none d then None else Some d
         | Some v => if is_none d then (if passes p v then Some v else None) else Some v
         end.
Proof.
  intros Ht Hp Hd Hacc.
  destruct (invoke_sends_passed_arguments cfg json_loads isprintable t kw net g Hacc) as (req & Hsent & Hout).
  destruct (tools_follow_table t kw Ht Hacc) as (args & Hargs & Htable).
  exists req, args. split; [exact Hsent|]. split; [rewrite Hout, Hargs; reflexivity|].
  rewrite Htable. unfold expected_argument.
  rewrite (find_param_declared t p Ht Hp). unfold forwarded. rewrite Hd.
  destruct d; destruct (dict_get (p_name p) kw); reflexivity.
Qed.

(** [search_requests(min_duration=0)]: the value 0 is not [None], so the key
    is sent with it. *)
Lemma C3_min_duration_zero_example :
  exists (req : request) (args : dict),
    t_sent (invoke default_config reference_loads ascii_only search_requests [("min_duration", VInt 0)]
              (failing ConnectionError "Connection refused") module_globals) = Some req
    /\ outgoing_arguments req = Some (VDict args)
    /\ dict_get "min_duration" args = Some (VInt 0).
Proof.
  apply (C3_optional_parameter_follows_its_declaration
           default_config reference_loads ascii_only search_requests
           (optional "min_duration" Tint VNone) VNone [("min_duration", VInt 0)]
           (failing ConnectionError "Connection refused") module_globals).
  - registered.
  - do 7 right. left. reflexivity.
  - reflexivity.
  - reflexivity.
Defined.

(** C3 as stated fails: [search_requests(query="")] gives a concrete value
    for [query] and the key is left out; [export_har()] leaves [limit] unset
    and the key is sent. *)
Lemma C3_empty_string_dropped_and_default_sent :
  let outgoing (t : tool) (kw : dict) :=
    option_map outgoing_arguments
      (t_sent (invoke default_config reference_loads ascii_only t kw
                 (failing ConnectionError "Connection refused") module_globals)) in
  outgoing search_requests [("query", VStr "")] = Some (Some (VDict [("limit", VInt 20)]))
  /\ outgoing export_har [] = Some (Some (VDict [("limit", VInt 100)])).
Proof. split; reflexivity. Qed.

(** * Further properties of the bridge *)

(** ** Every request of a run *)

Section RunFacts.

Variable cfg : config.
Variable json_loads : string -> value + string.
Variable isprintable : N -> bool.

Lemma invoke_refused (t : tool) (kw : dict) (net : network) (g : globals) :
  accepts (t_params t) kw = false ->
  invoke cfg json_loads isprintable t kw net g
  = {| t_returned := Raise TypeError; t_globals := g; t_sent := None |}.
Proof. intros H. unfold invoke. rewrite H. reflexivity. Qed.

Lemma invoke_accepted (t : tool) (kw : dict) (net : network) (g : globals) :
  accepts (t_params t) kw = true ->
  exists req,
    t_sent (invoke cfg json_loads isprintable t kw net g) = Some req
    /\ req_url req = MESSAGES_URL cfg
    /\ req_timeout req = 30%Z
    /\ envelope_keys req = ["jsonrpc"; "id"; "method"; "params"]
    /\ envelope_member "jsonrpc" req = Some (VStr "2.0")
    /\ envelope_member "method" req = Some (VStr "tools/call")
    /\ request_id req = Some (VInt (request_id_counter g))
    /\ remote_name req = Some (VStr (fst (t_call t (bound (t_params t) kw))))
    /\ request_id_counter (t_globals (invoke cfg json_loads isprintable t kw net g))
       = (request_id_counter g + 1)%Z.
Proof.
  intros H. unfold invoke. rewrite H.
  destruct (t_call t (bound (t_params t) kw)) as [name a].
  eexists. split; [reflexivity|]. repeat split.
Qed.

(** The wire shape is the same for every request of a run. *)
Lemma serve_requests_shape (l : list invocation) : forall g,
  Forall (fun req =>
            req_url req = MESSAGES_URL cfg
            /\ req_timeout req = 30%Z
            /\ envelope_keys req = ["jsonrpc"; "id"; "method"; "params"]
            /\ envelope_member "jsonrpc" req = Some (VStr "2.0")
            /\ envelope_member "method" req = Some (VStr "tools/call"))
         (sent_requests (serve cfg json_loads isprintable l g)).
Proof.
  induction l as [|i l IH]; intros g; [constructor|].
  cbn [serve sent_requests flat_map]. apply Forall_app. split; [|apply IH].
  destruct (accepts (t_params (i_tool i)) (i_kwargs i)) eqn:Hacc.
  - destruct (invoke_accepted (i_tool i) (i_kwargs i) (i_net i) g Hacc)
      as (req & -> & Hu & Ht & Hk & Hj & Hm & _).
    constructor; [|constructor]. repeat split; assumption.
  - rewrite (invoke_refused _ _ _ _ Hacc). constructor.
Qed.

(** The ids of the requests of a run count up from the counter the run
    starts at, one per accepted call. *)
Lemma serve_ids (l : list invocation) : forall g,
  map request_id (sent_requests (serve cfg json_loads isprintable l g))
  = map (fun n => Some (VInt (request_id_counter g + Z.of_nat n)))
        (seq 0 (length (filter accepted l)))
  /\ request_id_counter (globals_after_serving (serve cfg json_loads isprintable l g) g)
     = (request_id_counter g + Z.of_nat (length (filter accepted l)))%Z.
Proof.
  unfold globals_after_serving.
  induction l as [|i l IH]; intros g.
  - cbn. split; [reflexivity|lia].
  - cbn [serve sent_requests flat_map filter fold_left].
    change (accepted i) with (accepts (t_params (i_tool i)) (i_kwargs i)).
    destruct (accepts (t_params (i_tool i)) (i_kwargs i)) eqn:Hacc.
    + destruct (invoke_accepted (i_tool i) (i_kwargs i) (i_net i) g Hacc)
        as (req & Hsent & _ & _ & _ & _ & _ & Hid & _ & Hcount).
      rewrite Hsent. cbn [app length seq map].
      destruct (IH (t_globals (invoke cfg json_loads isprintable (i_tool i) (i_kwargs i) (i_net i) g)))
        as [IHids IHcount].
      fold (sent_requests (serve cfg json_loads isprintable l
              (t_globals (invoke cfg json_loads isprintable (i_tool i) (i_kwargs i) (i_net i) g)))).
      rewrite IHids, IHcount, Hcount, Hid, Z.add_0_r. split.
      * f_equal. rewrite <- seq_shift, map_map. apply map_ext.
        intros n. do 2 f_equal. lia.
      * lia.
    + rewrite (invoke_refused _ _ _ _ Hacc). cbn [t_sent t_globals app].
      apply IH.
Qed.

End RunFacts.

(** X1: whatever the tools and their arguments, every request of a run goes
    to the messages endpoint of the configured host and port with a timeout
    of 30 seconds, and its envelope has the four members [jsonrpc], [id],
    [method], [params] in this order, with protocol version 2.0 and method
    [tools/call]. *)
Theorem X1_every_request_has_the_same_wire_shape
  (cfg : config) (json_loads : string -> value + string)
  (isprintable : N -> bool)
  (l : list invocation) (g : globals) :
  Forall (fun req =>
            req_url req
            = "http://" ++ PROXYPIN_HOST cfg ++ ":" ++ str_int (PROXYPIN_PORT cfg) ++ "/messages"
            /\ req_timeout req = 30%Z
            /\ envelope_keys req = ["jsonrpc"; "id"; "method"; "params"]
            /\ envelope_member "jsonrpc" req = Some (VStr "2.0")
            /\ envelope_member "method" req = Some (VStr "tools/call"))
         (sent_requests (serve cfg json_loads isprintable l g)).
Proof.
  eapply Forall_impl; [|apply serve_requests_shape].
  intros req (Hu & H). split; [|exact H].
  rewrite Hu. unfold MESSAGES_URL, BASE_URL. rewrite !append_assoc. reflexivity.
Qed.

(** X3: in a run of tool calls from the freshly loaded module, the requests
    sent carry the ids 1, 2, ..., one for each call that Python accepts; a
    call refused at binding sends nothing and uses up no id, and the counter
    ends one above the number of requests sent. *)
Theorem X3_tool_calls_number_their_requests
  (cfg : config) (json_loads : string -> value + string)
  (isprintable : N -> bool) (l : list invocation) :
  let outs := serve cfg json_loads isprintable l module_globals in
  map request_id (sent_requests outs)
  = map (fun n => Some (VInt (Z.of_nat n))) (seq 1 (length (filter accepted l)))
  /\ length (sent_requests outs) = length (filter accepted l)
  /\ request_id_counter (globals_after_serving outs module_globals)
     = (Z.of_nat (length (filter accepted l)) + 1)%Z.
Proof.
  cbv zeta. destruct (serve_ids cfg json_loads isprintable l module_globals) as [Hids Hcount].
  assert (E : map request_id (sent_requests (serve cfg json_loads isprintable l module_globals))
              = map (fun n => Some (VInt (Z.of_nat n))) (seq 1 (length (filter accepted l)))).
  { rewrite Hids, <- seq_shift, map_map. apply map_ext. intros n.
    cbn [request_id_counter module_globals]. do 2 f_equal. lia. }
  split; [exact E|]. split.
  - rewrite <- (length_map request_id), E, length_map, length_seq. reflexivity.
  - rewrite Hcount. cbn [request_id_counter module_globals]. lia.
Qed.

(** ** Every registered tool *)

(** Each tool function passes its own name to the transport function. *)
Lemma tools_call_their_own_name (t : tool) (L : string -> value) :
  In t mcp_tools -> fst (t_call t L) = t_name t.
Proof.
  intros Ht. unfold mcp_tools in Ht. cbn [In] in Ht.
  repeat (destruct Ht as [<-|Ht]; [reflexivity|]). contradiction.
Qed.

Lemma tool_names_distinct : NoDup (map t_name mcp_tools).
Proof.
  unfold mcp_tools. cbn [map t_name search_requests get_request_details replay_request
    generate_code get_curl block_url add_response_rewrite add_request_rewrite
    update_script get_scripts set_config add_host_mapping get_proxy_status export_har
    import_har start_proxy stop_proxy get_recent_requests clear_requests get_statistics
    compare_requests find_similar_requests extract_api_endpoints].
  repeat (constructor;
          [cbn [In]; intros H;
           repeat (destruct H as [H|H]; [discriminate H|]); exact H|]).
  constructor.
Qed.

Lemma NoDup_map_injective {A B : Type} (f : A -> B) (l : list A) :
  NoDup (map f l) -> forall a b, In a l -> In b l -> f a = f b -> a = b.
Proof.
  induction l as [|x l IH]; cbn [map]; intros Hnd a b Ha Hb E; [contradiction|].
  inversion Hnd as [|y ys Hx Hl]; subst.
  destruct Ha as [<-|Ha]; destruct Hb as [<-|Hb].
  - reflexivity.
  - exfalso. apply Hx. rewrite E. apply in_map, Hb.
  - exfalso. apply Hx. rewrite <- E. apply in_map, Ha.
  - apply IH; assumption.
Qed.

(** X2: every registered tool is a one-to-one pass-through by name: on any
    call that Python accepts, the request it sends asks the remote service
    for the method of the tool's own registered name, and no other
    registered tool has that name. *)
Theorem X2_tool_asks_for_the_method_of_its_own_name
  (cfg : config) (json_loads : string -> value + string)
  (isprintable : N -> bool)
  (t : tool) (kw : dict) (net : network) (g : globals) :
  In t mcp_tools ->
  accepts (t_params t) kw = true ->
  exists req,
    t_sent (invoke cfg json_loads isprintable t kw net g) = Some req
    /\ remote_name req = Some (VStr (t_name t))
    /\ forall t', In t' mcp_tools -> t_name t' = t_name t -> t' = t.
Proof.
  intros Ht Hacc.
  destruct (invoke_accepted cfg json_loads isprintable t kw net g Hacc)
    as (req & Hsent & _ & _ & _ & _ & _ & _ & Hname & _).
  exists req. split; [exact Hsent|]. split.
  - rewrite Hname, (tools_call_their_own_name t _ Ht). reflexivity.
  - intros t' Ht' E.
    exact (NoDup_map_injective t_name mcp_tools tool_names_distinct t' t Ht' Ht E).
Qed.

(** [compare_requests(request_id_1="3", request_id_2="8")] asks for
    [compare_requests]. *)
Lemma X2_compare_requests_example :
  exists req,
    t_sent (invoke default_config reference_loads ascii_only compare_requests
              [("request_id_1", VStr "3"); ("request_id_2", VStr "8")]
              (failing ConnectionError "Connection refused") module_globals) = Some req
    /\ remote_name req = Some (VStr "compare_requests").
Proof.
  destruct (X2_tool_asks_for_the_method_of_its_own_name
              default_config reference_loads ascii_only compare_requests
              [("request_id_1", VStr "3"); ("request_id_2", VStr "8")]
              (failing ConnectionError "Connection refused") module_globals)
    as (req & Hsent & Hname & _).
  - registered.
  - vm_compute. reflexivity.
  - exists req. split; [exact Hsent|exact Hname].
Defined.

Lemma dict_get_all_none (d : dict) : (forall k, dict_get k d = None) -> d = [].
Proof.
  destruct d as [|[k v] d]; [reflexivity|].
  intros H. specialize (H k). cbn in H. rewrite String.eqb_refl in H. discriminate.
Qed.

Lemma In_key_dict_get (k : string) (d : dict) :
  In k (map fst d) -> exists v, dict_get k d = Some v.
Proof.
  induction d as [|[k0 v0] d IH]; cbn; [contradiction|].
  intros [->|Hin].
  - rewrite String.eqb_refl. eexists. reflexivity.
  - destruct (String.eqb k k0); [eexists; reflexivity|apply IH, Hin].
Qed.

(** X8: a registered tool without parameters ([get_scripts],
    [get_proxy_status], [stop_proxy], [clear_requests], [get_statistics])
    can only be called without keyword arguments, and the mapping it sends
    is empty: the [None] it passes for the arguments becomes [{}]. *)
Theorem X8_tool_without_parameters_sends_empty_mapping
  (cfg : config) (json_loads : string -> value + string)
  (isprintable : N -> bool)
  (t : tool) (kw : dict) (net : network) (g : globals) :
  In t mcp_tools ->
  t_params t = [] ->
  accepts (t_params t) kw = true ->
  kw = []
  /\ exists req,
       t_sent (invoke cfg json_loads isprintable t kw net g) = Some req
       /\ outgoing_arguments req = Some (VDict []).
Proof.
  intros Ht Hparams Hacc. split.
  - rewrite Hparams in Hacc. destruct kw as [|kv kw]; [reflexivity|discriminate Hacc].
  - destruct (invoke_sends_passed_arguments cfg json_loads isprintable t kw net g Hacc)
      as (req & Hsent & Hout).
    destruct (tools_follow_table t kw Ht Hacc) as (args & Hargs & Htable).
    exists req. split; [exact Hsent|]. rewrite Hout, Hargs. do 2 f_equal.
    apply dict_get_all_none. intros k. rewrite Htable.
    unfold expected_argument. rewrite Hparams. reflexivity.
Qed.

Lemma X8_clear_requests_example :
  exists req,
    t_sent (invoke default_config reference_loads ascii_only clear_requests []
              (failing ConnectionError "Connection refused") module_globals) = Some req
    /\ outgoing_arguments req = Some (VDict []).
Proof.
  destruct (X8_tool_without_parameters_sends_empty_mapping
              default_config reference_loads ascii_only clear_requests []
              (failing ConnectionError "Connection refused") module_globals)
    as (_ & H).
  - registered.
  - reflexivity.
  - reflexivity.
  - exact H.
Defined.

Lemma accepts_required_given (ps : list param) (kw : dict) (p : param) :
  accepts ps kw = true -> In p ps -> p_default p = None ->
  exists v, dict_get (p_name p) kw = Some v.
Proof.
  unfold accepts. intros H Hp Hd. apply andb_prop in H. destruct H as [_ H].
  rewrite forallb_forall in H. specialize (H p Hp). rewrite Hd in H.
  destruct (dict_get (p_name p) kw) as [v|]; [exists v; reflexivity|discriminate].
Qed.

(** X9: a parameter without default is never filtered: in any accepted call
    of a registered tool, the mapping sent holds under its name exactly the
    value the caller gave, be it the empty string or [None]. *)
Theorem X9_required_parameter_is_forwarded_as_given
  (cfg : config) (json_loads : string -> value + string)
  (isprintable : N -> bool)
  (t : tool) (p : param) (kw : dict) (net : network) (g : globals) :
  In t mcp_tools ->
  In p (t_params t) ->
  p_default p = None ->
  accepts (t_params t) kw = true ->
  exists (req : request) (args : dict) (v : value),
    t_sent (invoke cfg json_loads isprintable t kw net g) = Some req
    /\ outgoing_arguments req = Some (VDict args)
    /\ dict_get (p_name p) kw = Some v
    /\ dict_get (p_name p) args = Some v.
Proof.
  intros Ht Hp Hd Hacc.
  destruct (invoke_sends_passed_arguments cfg json_loads isprintable t kw net g Hacc)
    as (req & Hsent & Hout).
  destruct (tools_follow_table t kw Ht Hacc) as (args & Hargs & Htable).
  destruct (accepts_required_given _ kw p Hacc Hp Hd) as (v & Hv).
  exists req, args, v. split; [exact Hsent|]. split; [rewrite Hout, Hargs; reflexivity|].
  split; [exact Hv|].
  rewrite Htable. unfold expected_argument.
  rewrite (find_param_declared t p Ht Hp). unfold forwarded. rewrite Hd. exact Hv.
Qed.

(** [import_har(har_content="")]: the empty string is sent. *)
Lemma X9_import_har_empty_example :
  exists (req : request) (args : dict) (v : value),
    t_sent (invoke default_config reference_loads ascii_only import_har [("har_content", VStr "")]
              (failing ConnectionError "Connection refused") module_globals) = Some req
    /\ outgoing_arguments req = Some (VDict args)
    /\ dict_get "har_content" [("har_content", VStr "")] = Some v
    /\ dict_get "har_content" args = Some v.
Proof.
  apply (X9_required_parameter_is_forwarded_as_given
           default_config reference_loads ascii_only import_har (required "har_content" Tstr)
           [("har_content", VStr "")]
           (failing ConnectionError "Connection refused") module_globals).
  - registered.
  - left. reflexivity.
  - reflexivity.
  - vm_compute. reflexivity.
Defined.

(** X10: a registered tool sends nothing of its own invention: in any
    accepted call, every key of the mapping sent is the name of a declared
    parameter of the tool, and the value under it is the value the caller
    gave for that parameter or, when the caller gave none, its declared
    default. *)
Theorem X10_mapping_holds_declared_keys_and_given_or_default_values
  (cfg : config) (json_loads : string -> value + string)
  (isprintable : N -> bool)
  (t : tool) (kw : dict) (net : network) (g : globals) :
  In t mcp_tools ->
  accepts (t_params t) kw = true ->
  exists (req : request) (args : dict),
    t_sent (invoke cfg json_loads isprintable t kw net g) = Some req
    /\ outgoing_arguments req = Some (VDict args)
    /\ forall k, In k (map fst args) ->
         exists (p : param) (v : value),
           In p (t_params t) /\ p_name p = k
           /\ dict_get k args = Some v
           /\ (dict_get k kw = Some v
               \/ (dict_get k kw = None /\ p_default p = Some v)).
Proof.
  intros Ht Hacc.
  destruct (invoke_sends_passed_arguments cfg json_loads isprintable t kw net g Hacc)
    as (req & Hsent & Hout).
  destruct (tools_follow_table t kw Ht Hacc) as (args & Hargs & Htable).
  exists req, args. split; [exact Hsent|]. split; [rewrite Hout, Hargs; reflexivity|].
  intros k Hk. apply In_key_dict_get in Hk. destruct Hk as (v & Hv).
  pose proof Hv as Hv'. rewrite Htable in Hv'. unfold expected_argument in Hv'.
  destruct (find_param k (t_params t)) as [p|] eqn:Hfind; [|discriminate].
  apply find_param_name in Hfind. destruct Hfind as [Hin Hname].
  exists p, v. split; [exact Hin|]. split; [exact Hname|]. split; [exact Hv|].
  unfold forwarded in Hv'.
  destruct (p_default p) as [d|]; [|left; exact Hv'].
  destruct (dict_get k kw) as [w|].
  - left. destruct d; try (injection Hv' as <-; reflexivity).
    destruct (passes p w); [injection Hv' as <-; reflexivity|discriminate].
  - right. split; [reflexivity|]. destruct d; try discriminate; exact Hv'.
Qed.

(** [get_recent_requests(method="POST")]: the keys sent are [limit], with its
    default, and [method]. *)
Lemma X10_get_recent_requests_example :
  exists (req : request) (args : dict),
    t_sent (invoke default_config reference_loads ascii_only get_recent_requests
              [("method", VStr "POST")]
              (failing ConnectionError "Connection refused") module_globals) = Some req
    /\ outgoing_arguments req = Some (VDict args)
    /\ forall k, In k (map fst args) ->
         exists (p : param) (v : value),
           In p (t_params get_recent_requests) /\ p_name p = k
           /\ dict_get k args = Some v
           /\ (dict_get k [("method", VStr "POST")] = Some v
               \/ (dict_get k [("method", VStr "POST")] = None /\ p_default p = Some v)).
Proof.
  apply (X10_mapping_holds_declared_keys_and_given_or_default_values
           default_config reference_loads ascii_only get_recent_requests [("method", VStr "POST")]
           (failing ConnectionError "Connection refused") module_globals).
  - registered.
  - vm_compute. reflexivity.
Defined.

(** ** Replies off the expected shape *)

(** X4: the members of a successful reply are optional.  When the body is
    an object without [error] member and it has no [result] member, or its
    [result] is an object whose [content] is missing or falsy (an empty
    list, [null], an empty string, zero, [false], an empty object), the
    transport function returns the empty object. *)
Theorem X4_missing_or_empty_content_gives_empty_object
  (cfg : config) (json_loads : string -> value + string)
  (isprintable : N -> bool)
  (name : string) (args : value) (net : network) (g : globals)
  (r : Response) (body : dict) :
  reply net = Responded r ->
  (status_code r < 400 \/ 600 <= status_code r)%Z ->
  json_loads (text r) = inl (VDict body) ->
  dict_get "error" body = None ->
  dict_get "result" body = None
  \/ (exists res, dict_get "result" body = Some (VDict res)
        /\ (dict_get "content" res = None
            \/ exists content, dict_get "content" res = Some content
                 /\ truthy content = false)) ->
  returned (call_proxypin_tool cfg json_loads isprintable name args net g) = Return (VDict []).
Proof.
  intros Hreply Hstatus Hbody Herror Hshape.
  rewrite (call_on_decoded_body cfg json_loads isprintable name args net g r (VDict body)
             Hreply Hstatus Hbody).
  cbn [py_in py_get bind]. rewrite Herror. cbn [bind].
  destruct Hshape as [Hres|(res & Hres & [Hc|(content & Hc & Hfalsy)])];
    rewrite Hres; cbn [py_get bind dict_get truthy].
  - reflexivity.
  - rewrite Hc. reflexivity.
  - rewrite Hc, Hfalsy. reflexivity.
Qed.

(** A reply with a null content, and a reply that is the empty object. *)
Lemma X4_null_content_example :
  let run (doc : string) :=
    returned (call_proxypin_tool default_config reference_loads ascii_only "stop_proxy" VNone
                (answering (response_with 200 "OK" (Json.q doc))) module_globals) in
  run "{'result':{'content':null}}" = Return (VDict [])
  /\ run "{}" = Return (VDict []).
Proof.
  cbv zeta. split.
  - apply (X4_missing_or_empty_content_gives_empty_object
             default_config reference_loads ascii_only "stop_proxy" VNone
             (answering (response_with 200 "OK" (Json.q "{'result':{'content':null}}")))
             module_globals
             (response_with 200 "OK" (Json.q "{'result':{'content':null}}"))
             [("result", VDict [("content", VNone)])]).
    + reflexivity.
    + left. cbn [status_code response_with]. lia.
    + vm_compute. reflexivity.
    + reflexivity.
    + right. exists [("content", VNone)]. split; [reflexivity|].
      right. exists VNone. split; reflexivity.
  - apply (X4_missing_or_empty_content_gives_empty_object
             default_config reference_loads ascii_only "stop_proxy" VNone
             (answering (response_with 200 "OK" (Json.q "{}")))
             module_globals (response_with 200 "OK" (Json.q "{}")) []).
    + reflexivity.
    + left. cbn [status_code response_with]. lia.
    + vm_compute. reflexivity.
    + reflexivity.
    + left. reflexivity.
Defined.

(** X5: the body is not checked to be an object.  When it decodes to
    anything else, the call fails with a builtin error that is not wrapped:
    [TypeError] for [null], a boolean or a number (the membership test is
    refused) and for a string or list that holds [error] (the subscript is
    refused), [AttributeError] for any other string or list (there is no
    [get]). *)
Theorem X5_body_that_is_no_object_raises_builtin_error
  (cfg : config) (json_loads : string -> value + string)
  (isprintable : N -> bool)
  (name : string) (args : value) (net : network) (g : globals)
  (r : Response) (v : value) :
  reply net = Responded r ->
  (status_code r < 400 \/ 600 <= status_code r)%Z ->
  json_loads (text r) = inl v ->
  match v with
  | VDict _ => True
  | VStr s =>
      returned (call_proxypin_tool cfg json_loads isprintable name args net g)
      = Raise (if contains s "error" then TypeError else AttributeError)
  | VList l =>
      returned (call_proxypin_tool cfg json_loads isprintable name args net g)
      = Raise (if existsb is_error_word l then TypeError else AttributeError)
  | VNone | VBool _ | VInt _ | VFloat _ =>
      returned (call_proxypin_tool cfg json_loads isprintable name args net g) = Raise TypeError
  end.
Proof.
  intros Hreply Hstatus Hbody.
  rewrite (call_on_decoded_body cfg json_loads isprintable name args net g r v Hreply Hstatus Hbody).
  destruct v as [| | | |s|l|d]; cbn [py_in bind]; try reflexivity; try exact I.
  - destruct (contains s "error"); reflexivity.
  - change (existsb (fun v => match v with VStr s => String.eqb s "error" | _ => false end) l)
      with (existsb is_error_word l).
    destruct (existsb is_error_word l); reflexivity.
Qed.

(** An empty list as the body. *)
Lemma X5_list_body_example :
  returned (call_proxypin_tool default_config reference_loads ascii_only "get_scripts" VNone
              (answering (response_with 200 "OK" "[]")) module_globals)
  = Raise AttributeError.
Proof.
  apply (X5_body_that_is_no_object_raises_builtin_error
           default_config reference_loads ascii_only "get_scripts" VNone
           (answering (response_with 200 "OK" "[]")) module_globals
           (response_with 200 "OK" "[]") (VList [])).
  - reflexivity.
  - left. cbn [status_code response_with]. lia.
  - vm_compute. reflexivity.
Defined.

(** X11: of a non-empty [content] list only the first element counts.  If it
    is not an object the call fails with [AttributeError]; if its [text] is
    not a string the call fails with [TypeError]; otherwise the result is
    what [json.loads] makes of the text, or of [{}] when there is none.
    The elements after the first play no part. *)
Theorem X11_first_content_element_alone_decides
  (cfg : config) (json_loads : string -> value + string)
  (isprintable : N -> bool)
  (name : string) (args : value) (net : network) (g : globals)
  (r : Response) (body res : dict) (first : value) (rest : list value) :
  reply net = Responded r ->
  (status_code r < 400 \/ 600 <= status_code r)%Z ->
  json_loads (text r) = inl (VDict body) ->
  dict_get "error" body = None ->
  dict_get "result" body = Some (VDict res) ->
  dict_get "content" res = Some (VList (first :: rest)) ->
  returned (call_proxypin_tool cfg json_loads isprintable name args net g)
  = match first with
    | VDict item =>
        match dict_get "text" item with
        | Some (VStr t) =>
            match json_loads t with
            | inl v => Return v
            | inr msg => Raise (JSONDecodeError msg)
            end
        | Some _ => Raise TypeError
        | None =>
            match json_loads "{}" with
            | inl v => Return v
            | inr msg => Raise (JSONDecodeError msg)
            end
        end
    | _ => Raise AttributeError
    end.
Proof.
  intros Hreply Hstatus Hbody Herror Hresult Hcontent.
  rewrite (call_on_decoded_body cfg json_loads isprintable name args net g r (VDict body)
             Hreply Hstatus Hbody).
  cbn [py_in py_get bind]. rewrite Herror, Hresult. cbn [py_get bind].
  rewrite Hcontent. cbn [truthy py_first bind].
  destruct first as [| | | | | |item]; cbn [py_get bind]; try reflexivity.
  destruct (dict_get "text" item) as [[| | | |t| |]|]; reflexivity.
Qed.

(** A content whose first element is a bare string, and one whose text is a
    number. *)
Lemma X11_malformed_first_element_example :
  let run (doc : string) :=
    returned (call_proxypin_tool default_config reference_loads ascii_only "get_curl"
                (VDict [("request_id", VStr "5")])
                (answering (response_with 200 "OK" (Json.q doc))) module_globals) in
  run "{'result':{'content':['curl -X GET', {'text':'{}'}]}}" = Raise AttributeError
  /\ run "{'result':{'content':[{'text':5}]}}" = Raise TypeError.
Proof.
  cbv zeta. split.
  - apply (X11_first_content_element_alone_decides
             default_config reference_loads ascii_only "get_curl" (VDict [("request_id", VStr "5")])
             (answering (response_with 200 "OK"
                (Json.q "{'result':{'content':['curl -X GET', {'text':'{}'}]}}")))
             module_globals
             (response_with 200 "OK"
                (Json.q "{'result':{'content':['curl -X GET', {'text':'{}'}]}}"))
             [("result", VDict [("content",
                 VList [VStr "curl -X GET"; VDict [("text", VStr "{}")]])])]
             [("content", VList [VStr "curl -X GET"; VDict [("text", VStr "{}")]])]
             (VStr "curl -X GET") [VDict [("text", VStr "{}")]]).
    + reflexivity.
    + left. cbn [status_code response_with]. lia.
    + vm_compute. reflexivity.
    + reflexivity.
    + reflexivity.
    + reflexivity.
  - apply (X11_first_content_element_alone_decides
             default_config reference_loads ascii_only "get_curl" (VDict [("request_id", VStr "5")])
             (answering (response_with 200 "OK"
                (Json.q "{'result':{'content':[{'text':5}]}}")))
             module_globals
             (response_with 200 "OK" (Json.q "{'result':{'content':[{'text':5}]}}"))
             [("result", VDict [("content", VList [VDict [("text", VInt 5)]])])]
             [("content", VList [VDict [("text", VInt 5)]])]
             (VDict [("text", VInt 5)]) []).
    + reflexivity.
    + left. cbn [status_code response_with]. lia.
    + vm_compute. reflexivity.
    + reflexivity.
    + reflexivity.
    + reflexivity.
Defined.

(** X12: of a reply that passes the status check, only the [error] and
    [result] members of the body are read.  Two replies whose bodies agree
    on these two members give the same outcome, whatever their status, the
    [id] they echo and their other members, and whatever was asked. *)
Theorem X12_only_error_and_result_members_are_read
  (cfg : config) (json_loads : string -> value + string)
  (isprintable : N -> bool)
  (name1 name2 : string) (args1 args2 : value) (net1 net2 : network) (g1 g2 : globals)
  (r1 r2 : Response) (body1 body2 : dict) :
  reply net1 = Responded r1 ->
  reply net2 = Responded r2 ->
  (status_code r1 < 400 \/ 600 <= status_code r1)%Z ->
  (status_code r2 < 400 \/ 600 <= status_code r2)%Z ->
  json_loads (text r1) = inl (VDict body1) ->
  json_loads (text r2) = inl (VDict body2) ->
  dict_get "error" body1 = dict_get "error" body2 ->
  dict_get "result" body1 = dict_get "result" body2 ->
  returned (call_proxypin_tool cfg json_loads isprintable name1 args1 net1 g1)
  = returned (call_proxypin_tool cfg json_loads isprintable name2 args2 net2 g2).
Proof.
  intros Hreply1 Hreply2 Hstatus1 Hstatus2 Hbody1 Hbody2 Herror Hresult.
  rewrite (call_on_decoded_body cfg json_loads isprintable name1 args1 net1 g1 r1 (VDict body1)
             Hreply1 Hstatus1 Hbody1).
  rewrite (call_on_decoded_body cfg json_loads isprintable name2 args2 net2 g2 r2 (VDict body2)
             Hreply2 Hstatus2 Hbody2).
  cbn [py_in py_getitem py_get bind]. rewrite Herror, Hresult. reflexivity.
Qed.

(** A reply that echoes a wrong id with status 203 against the plain reply
    with status 200. *)
Lemma X12_wrong_id_example :
  returned (call_proxypin_tool default_config reference_loads ascii_only "get_statistics" VNone
              (answering (response_with 203 "Non-Authoritative Information"
                 (Json.q "{'jsonrpc':'2.0','id':99,'result':{'content':[{'text':'[1]'}]}}")))
              module_globals)
  = returned (call_proxypin_tool default_config reference_loads ascii_only "get_scripts" VNone
                (answering (response_with 200 "OK"
                   (Json.q "{'result':{'content':[{'text':'[1]'}]}}")))
                module_globals).
Proof.
  apply (X12_only_error_and_result_members_are_read
           default_config reference_loads ascii_only "get_statistics" "get_scripts" VNone VNone
           (answering (response_with 203 "Non-Authoritative Information"
              (Json.q "{'jsonrpc':'2.0','id':99,'result':{'content':[{'text':'[1]'}]}}")))
           (answering (response_with 200 "OK"
              (Json.q "{'result':{'content':[{'text':'[1]'}]}}")))
           module_globals module_globals
           (response_with 203 "Non-Authoritative Information"
              (Json.q "{'jsonrpc':'2.0','id':99,'result':{'content':[{'text':'[1]'}]}}"))
           (response_with 200 "OK" (Json.q "{'result':{'content':[{'text':'[1]'}]}}"))
           [("jsonrpc", VStr "2.0"); ("id", VInt 99);
            ("result", VDict [("content", VList [VDict [("text", VStr "[1]")]])])]
           [("result", VDict [("content", VList [VDict [("text", VStr "[1]")]])])]).
  - reflexivity.
  - reflexivity.
  - left. cbn [status_code response_with]. lia.
  - left. cbn [status_code response_with]. lia.
  - vm_compute. reflexivity.
  - vm_compute. reflexivity.
  - reflexivity.
  - reflexivity.
Defined.

(** ** The failures of the transport function *)

Section FailureFacts.

Variable cfg : config.
Variable json_loads : string -> value + string.
Variable isprintable : N -> bool.

Lemma call_on_undecodable_body
  (name : string) (args : value) (net : network) (g : globals)
  (r : Response) (msg : string) :
  reply net = Responded r ->
  (status_code r < 400 \/ 600 <= status_code r)%Z ->
  json_loads (text r) = inr msg ->
  returned (call_proxypin_tool cfg json_loads isprintable name args net g)
  = Raise (Exception ("ProxyPin连接失败: " ++ msg)).
Proof.
  intros Hreply Hstatus Hbody.
  unfold call_proxypin_tool, try_body, post. cbn [returned].
  rewrite Hreply. cbn [bind].
  rewrite (raise_for_status_passes r Hstatus). cbn [bind].
  unfold json. rewrite Hbody. reflexivity.
Qed.

(** What a call can raise once the body of the reply has been decoded. *)
Lemma decoded_call_raises
  (name : string) (args : value) (net : network) (g : globals)
  (r : Response) (result : value) (e : exn) :
  reply net = Responded r ->
  (status_code r < 400 \/ 600 <= status_code r)%Z ->
  json_loads (text r) = inl result ->
  returned (call_proxypin_tool cfg json_loads isprintable name args net g) = Raise e ->
  (exists err, e = Exception ("MCP Error: " ++ py_str isprintable err))
  \/ (exists msg, e = JSONDecodeError msg)
  \/ e = TypeError \/ e = AttributeError \/ e = KeyError.
Proof.
  intros Hreply Hstatus Hbody.
  rewrite (call_on_decoded_body cfg json_loads isprintable name args net g r result
             Hreply Hstatus Hbody).
  destruct (py_in "error" result) as [[|]|e0] eqn:Hin; cbn [bind].
  - destruct (py_getitem result "error") as [err|e0] eqn:Hget; cbn [bind]; intros E;
      injection E as <-.
    + left. exists err. reflexivity.
    + destruct result; cbn in Hget; try (injection Hget as <-; tauto).
      destruct (dict_get "error" items); [discriminate|injection Hget as <-; tauto].
  - destruct (py_get result "result" (VDict [])) as [res|e0] eqn:Hres; cbn [bind].
    2:{ intros E. injection E as <-. destruct result; inversion Hres; tauto. }
    destruct (py_get res "content" (VList [])) as [content|e0] eqn:Hcontent; cbn [bind].
    2:{ intros E. injection E as <-. destruct res; inversion Hcontent; tauto. }
    destruct (truthy content) eqn:Htruthy; [|discriminate].
    destruct (py_first content) as [first|e0] eqn:Hfirst; cbn [bind].
    2:{ intros E. injection E as <-.
        destruct content as [| | | |[|]|[|]|]; cbn in Htruthy; inversion Hfirst;
          try tauto; discriminate. }
    destruct (py_get first "text" (VStr "{}")) as [t|e0] eqn:Htext; cbn [bind].
    2:{ intros E. injection E as <-. destruct first; inversion Htext; tauto. }
    destruct t as [| | | |t| |]; cbn [py_json_loads]; try (intros E; injection E as <-; tauto).
    destruct (json_loads t) as [v|m]; [discriminate|].
    intros E. injection E as <-. right. left. exists m. reflexivity.
  - intros E. injection E as <-. destruct result; inversion Hin; tauto.
Qed.

Lemma status_cases (r : Response) :
  (400 <= status_code r < 600)%Z \/ (status_code r < 400 \/ 600 <= status_code r)%Z.
Proof. lia. Qed.

End FailureFacts.

(** X6: what a call never raises, whatever the tool, the arguments and the
    reply.  It never raises an exception of the requests library, since the
    [except] clause turns each of them into the plain [Exception]; it never
    raises [IndexError], since the subscript [content[0]] is evaluated only
    when [content] is truthy; and when it raises the plain [Exception], the
    message starts with one of the two prefixes the function writes, that
    of the connection failures or [MCP Error: ]. *)
Theorem X6_what_the_transport_function_never_raises
  (cfg : config) (json_loads : string -> value + string)
  (isprintable : N -> bool)
  (name : string) (args : value) (net : network) (g : globals) (e : exn) :
  returned (call_proxypin_tool cfg json_loads isprintable name args net g) = Raise e ->
  (forall kind msg, e <> RequestException kind msg)
  /\ e <> IndexError
  /\ forall m, e = Exception m ->
       String.prefix "ProxyPin连接失败: " m = true \/ String.prefix "MCP Error: " m = true.
Proof.
  intros Hraise.
  assert (H : (exists cause, e = Exception ("ProxyPin连接失败: " ++ cause))
              \/ (exists err, e = Exception ("MCP Error: " ++ py_str isprintable err))
              \/ (exists msg, e = JSONDecodeError msg)
              \/ e = TypeError \/ e = AttributeError \/ e = KeyError).
  { destruct (reply net) as [kind msg|r] eqn:Hreply.
    - rewrite (call_on_network_failure cfg json_loads isprintable name args net g
                 kind msg Hreply) in Hraise.
      injection Hraise as <-. left. exists msg. reflexivity.
    - destruct (status_cases r) as [Hbad|Hok].
      + rewrite (call_on_error_status cfg json_loads isprintable name args net g r
                   Hreply Hbad) in Hraise.
        injection Hraise as <-. left. eexists. reflexivity.
      + destruct (json_loads (text r)) as [result|msg] eqn:Hbody.
        * right.
          exact (decoded_call_raises cfg json_loads isprintable name args net g r result e
                   Hreply Hok Hbody Hraise).
        * rewrite (call_on_undecodable_body cfg json_loads isprintable name args net g
                     r msg Hreply Hok Hbody) in Hraise.
          injection Hraise as <-. left. exists msg. reflexivity. }
  split; [|split].
  - intros kind msg ->.
    destruct H as [(c & H)|[(c & H)|[(c & H)|[H|[H|H]]]]]; discriminate H.
  - intros ->.
    destruct H as [(c & H)|[(c & H)|[(c & H)|[H|[H|H]]]]]; discriminate H.
  - intros m ->.
    destruct H as [(c & H)|[(c & H)|[(c & H)|[H|[H|H]]]]]; try discriminate H;
      injection H as ->.
    + left. exact (prefix_append "ProxyPin连接失败: " c).
    + right. exact (prefix_append "MCP Error: " (py_str isprintable c)).
Qed.

(** A refused connection: the plain [Exception] with the prefix of the
    connection failures. *)
Lemma X6_refused_connection_example :
  returned (call_proxypin_tool default_config reference_loads ascii_only "get_scripts" VNone
              (failing ConnectionError "Connection refused") module_globals)
  = Raise (Exception "ProxyPin连接失败: Connection refused")
  /\ String.prefix "ProxyPin连接失败: " "ProxyPin连接失败: Connection refused" = true.
Proof.
  split; [vm_compute; reflexivity|].
  destruct (X6_what_the_transport_function_never_raises
              default_config reference_loads ascii_only "get_scripts" VNone
              (failing ConnectionError "Connection refused") module_globals
              (Exception "ProxyPin连接失败: Connection refused"))
    as (_ & _ & H).
  - vm_compute. reflexivity.
  - destruct (H _ eq_refl) as [Hp|Hp]; [exact Hp|discriminate Hp].
Defined.

